(** * The PDF read tool: page-selection parser and extraction orchestrator

    A shallow embedding of
    [tools/src/aden_tools/tools/pdf_read_tool/pdf_read_tool.py].

    Python values are modelled as follows.
    - [int] is [Z] (unbounded, as in the language).
    - [str] is [string]; every [ascii] stands for the code point of the same
      number, so the strings covered are those over code points 0..255.
      The character classes used by [str.lower], [str.isdigit], [str.strip]
      and [int()] are written out for that range.
    - [list] is [list]; a [dict] is an association list in insertion order.
    - A returned [{"error": ...}] dict is the left injection of a sum, with
      one constructor per [return {"error": ...}] site of the source, carrying
      the values interpolated into the message.
    - [ValueError] raised inside the [try] block of [parse_page_range] is the
      [None] of an option; the [except] clause turns it into an error. *)

From Stdlib Require Import ZArith String Ascii List Bool Lia DecimalString.
From Stdlib Require Import DecimalPos.
Import ListNotations.

Open Scope string_scope.
Open Scope Z_scope.

(** ** Characters *)

Module Char.

Definition code (c : ascii) : Z := Z.of_N (N_of_ascii c).

Definition of_code (z : Z) : ascii := ascii_of_N (Z.to_N z).

(** ASCII decimal digits, the only digits [int()] accepts below 256. *)
Definition is_decimal (c : ascii) : bool :=
  (48 <=? code c) && (code c <=? 57).

Definition decimal_value (c : ascii) : Z := code c - 48.

(** [str.isdigit] per character: the decimal digits and the superscript
    digits U+00B2, U+00B3 and U+00B9. *)
Definition isdigit (c : ascii) : bool :=
  is_decimal c || (code c =? 178) || (code c =? 179) || (code c =? 185).

(** Unicode whitespace below 256, as removed by [str.strip()]. *)
Definition isspace (c : ascii) : bool :=
  ((9 <=? code c) && (code c <=? 13))
  || ((28 <=? code c) && (code c <=? 32))
  || (code c =? 133) || (code c =? 160).

(** Whitespace skipped by [int()]: the C locale-independent blanks, and
    U+0085 and U+00A0, which [int()] first rewrites to a blank. *)
Definition is_int_space (c : ascii) : bool :=
  ((9 <=? code c) && (code c <=? 13))
  || (code c =? 32) || (code c =? 133) || (code c =? 160).

(** [str.lower] per character: A..Z and the upper-case letters of
    U+00C0..U+00DE (U+00D7 is the multiplication sign). *)
Definition lower (c : ascii) : ascii :=
  let n := code c in
  if ((65 <=? n) && (n <=? 90))
     || ((192 <=? n) && (n <=? 222) && negb (n =? 215))
  then of_code (n + 32)
  else c.

End Char.

(** ** String methods *)

Module Str.

Fixpoint map (f : ascii -> ascii) (s : string) : string :=
  match s with
  | EmptyString => EmptyString
  | String c r => String (f c) (map f r)
  end.

Fixpoint forallb (p : ascii -> bool) (s : string) : bool :=
  match s with
  | EmptyString => true
  | String c r => p c && forallb p r
  end.

(** [c in s] for a one-character [c]. *)
Fixpoint contains (c : ascii) (s : string) : bool :=
  match s with
  | EmptyString => false
  | String d r => Ascii.eqb d c || contains c r
  end.

Definition lower (s : string) : string := map Char.lower s.

(** [s.isdigit()]: at least one character, and all of them digits. *)
Definition isdigit (s : string) : bool :=
  match s with
  | EmptyString => false
  | _ => forallb Char.isdigit s
  end.

Fixpoint lstrip (s : string) : string :=
  match s with
  | EmptyString => EmptyString
  | String c r => if Char.isspace c then lstrip r else s
  end.

Fixpoint rstrip (s : string) : string :=
  match s with
  | EmptyString => EmptyString
  | String c r =>
      match rstrip r with
      | EmptyString => if Char.isspace c then EmptyString
                       else String c EmptyString
      | r' => String c r'
      end
  end.

(** [s.strip()] *)
Definition strip (s : string) : string := rstrip (lstrip s).

(** [s.split(sep)] for a one-character [sep]: never empty. *)
Fixpoint split (sep : ascii) (s : string) : list string :=
  match s with
  | EmptyString => [EmptyString]
  | String c r =>
      if Ascii.eqb c sep then EmptyString :: split sep r
      else match split sep r with
           | [] => [String c EmptyString]
           | x :: xs => String c x :: xs
           end
  end.

(** [s.split(sep, 1)] for a one-character [sep]: one or two pieces,
    cut at the first occurrence. *)
Fixpoint split1 (sep : ascii) (s : string) : list string :=
  match s with
  | EmptyString => [EmptyString]
  | String c r =>
      if Ascii.eqb c sep then [EmptyString; r]
      else match split1 sep r with
           | x :: xs => String c x :: xs
           | [] => [String c EmptyString]
           end
  end.

(** [sep.join(parts)] *)
Fixpoint join (sep : string) (parts : list string) : string :=
  match parts with
  | [] => EmptyString
  | [x] => x
  | x :: rest => x ++ sep ++ join sep rest
  end.

End Str.

(** ** [int(s)] in base 10

    The accepted strings are: blanks, an optional sign, decimal digits with
    single underscores allowed between two digits, blanks.  Anything else
    raises [ValueError], here [None].  (The interpreter's configurable cap on
    the number of digits is not part of the model.) *)

Module PyInt.

Inductive scan_state : Set :=
| Start            (* after the sign: a digit is required *)
| AfterDigit       (* a digit, an underscore, a blank or the end *)
| AfterUnderscore  (* a digit is required *)
| Trailing.        (* blanks until the end *)

Fixpoint scan (q : scan_state) (acc : Z) (s : string) : option Z :=
  match s with
  | EmptyString =>
      match q with
      | AfterDigit | Trailing => Some acc
      | Start | AfterUnderscore => None
      end
  | String c r =>
      match q with
      | Start | AfterUnderscore =>
          if Char.is_decimal c
          then scan AfterDigit (10 * acc + Char.decimal_value c) r
          else None
      | AfterDigit =>
          if Char.is_decimal c
          then scan AfterDigit (10 * acc + Char.decimal_value c) r
          else if Ascii.eqb c "_" then scan AfterUnderscore acc r
          else if Char.is_int_space c then scan Trailing acc r
          else None
      | Trailing =>
          if Char.is_int_space c then scan Trailing acc r else None
      end
  end.

Fixpoint skip_blanks (s : string) : string :=
  match s with
  | EmptyString => EmptyString
  | String c r => if Char.is_int_space c then skip_blanks r else s
  end.

Definition signed (s : string) : option Z :=
  match s with
  | EmptyString => None
  | String c r =>
      if Ascii.eqb c "+" then scan Start 0 r
      else if Ascii.eqb c "-" then option_map Z.opp (scan Start 0 r)
      else scan Start 0 s
  end.

Definition int (s : string) : option Z := signed (skip_blanks s).

End PyInt.

(** ** Lists *)

(** [list(range(lo, hi))] *)
Definition py_range (lo hi : Z) : list Z :=
  List.map (fun i => lo + Z.of_nat i) (seq 0 (Z.to_nat (hi - lo))).

(** [l[:n]]: a negative [n] counts from the end. *)
Definition py_slice_to {A : Type} (l : list A) (n : Z) : list A :=
  if 0 <=? n then firstn (Z.to_nat n) l
  else firstn (length l - Z.to_nat (- n)) l.

(** The list comprehension [[f(x) for x in l]] with a fallible [f]: the
    first failure aborts it. *)
Fixpoint try_map {A B : Type} (f : A -> option B) (l : list A)
  : option (list B) :=
  match l with
  | [] => Some []
  | x :: r =>
      match f x with
      | None => None
      | Some y =>
          match try_map f r with
          | None => None
          | Some ys => Some (y :: ys)
          end
      end
  end.

(** ** The page-range parser *)

(** One constructor per error site of [parse_page_range]. *)
Inductive parse_error : Type :=
| PageOutOfRange (page total_pages : Z)
    (* "Page {page} out of range. PDF has {total_pages} pages." *)
| PageBelowOne (start : Z)
    (* "Page numbers start at 1, got {start}." *)
| BadRange (pages : string)
    (* "Invalid page range: {pages}. Start must be <= end." *)
| BadFormat (pages : string)
    (* "Invalid page format: '{pages}'." *)
| BadFormatValueError (pages : string).
    (* "Invalid page format: '{pages}'. {exc}" *)

(** The error taxonomy of the specification. *)
Inductive error_kind : Set :=
| KPageOutOfRange
| KInvalidRange
| KInvalidFormat.

Definition kind_of (e : parse_error) : error_kind :=
  match e with
  | PageOutOfRange _ _ | PageBelowOne _ => KPageOutOfRange
  | BadRange _ => KInvalidRange
  | BadFormat _ | BadFormatValueError _ => KInvalidFormat
  end.

Definition parse_result : Type := parse_error + list Z.

(** The [for p in page_nums] loop: the first page outside
    [1..total_pages], if any. *)
Fixpoint first_out_of_range (total_pages : Z) (page_nums : list Z)
  : option Z :=
  match page_nums with
  | [] => None
  | p :: r =>
      if (p <? 1) || (p >? total_pages) then Some p
      else first_out_of_range total_pages r
  end.

(** The body of the [try] block; [None] is a raised [ValueError]. *)
Definition parse_body (pages : string) (total_pages max_pages : Z)
  : option parse_result :=
  if Str.isdigit pages then
    match PyInt.int pages with
    | None => None
    | Some page_num =>
        if (page_num <? 1) || (page_num >? total_pages)
        then Some (inl (PageOutOfRange page_num total_pages))
        else Some (inr [page_num - 1])
    end
  else if Str.contains "-" pages && negb (Str.contains "," pages) then
    match Str.split1 "-" pages with
    | [start_str; end_str] =>
        match PyInt.int start_str with
        | None => None
        | Some start =>
            match PyInt.int end_str with
            | None => None
            | Some end_ =>
                if start >? end_ then Some (inl (BadRange pages))
                else if start <? 1 then Some (inl (PageBelowOne start))
                else if end_ >? total_pages
                     then Some (inl (PageOutOfRange end_ total_pages))
                else Some (inr (py_range (start - 1)
                                  (Z.min end_ (start - 1 + max_pages))))
            end
        end
    | _ => None   (* unpacking a list of another length *)
    end
  else if Str.contains "," pages then
    match try_map (fun p => PyInt.int (Str.strip p)) (Str.split "," pages) with
    | None => None
    | Some page_nums =>
        match first_out_of_range total_pages page_nums with
        | Some p => Some (inl (PageOutOfRange p total_pages))
        | None =>
            Some (inr (List.map (fun p => p - 1)
                         (py_slice_to page_nums max_pages)))
        end
    end
  else Some (inl (BadFormat pages)).

Definition parse_page_range (pages : option string) (total_pages max_pages : Z)
  : parse_result :=
  match pages with
  | None => inr (py_range 0 (Z.min total_pages max_pages))
  | Some pages =>
      if String.eqb (Str.lower pages) "all"
      then inr (py_range 0 (Z.min total_pages max_pages))
      else match parse_body pages total_pages max_pages with
           | Some r => r
           | None => inl (BadFormatValueError pages)
           end
  end.

(** ** The extraction orchestrator *)

(** What [pdf_read] observes of a value stored in the document information
    dictionary: its truth value and its [str()]. *)
Record pdf_object : Type := {
  obj_truthy : bool;
  obj_str : string
}.

(** The Python values that occur in a result dict. *)
#[local] Set Warnings "-register-all".
Inductive pyval : Type :=
| VNone
| VStr (s : string)
| VInt (z : Z)
| VObj (o : pdf_object)
| VDict (d : list (string * pyval)).

Definition dict (V : Type) : Type := list (string * V).

(** [d.get(k)]; [None] when the key is not in the dict. *)
Fixpoint dict_get {V : Type} (k : string) (d : dict V) : option V :=
  match d with
  | [] => None
  | (k', v) :: r => if String.eqb k' k then Some v else dict_get k r
  end.

(** [d[k] = v] *)
Fixpoint dict_set {V : Type} (k : string) (v : V) (d : dict V) : dict V :=
  match d with
  | [] => [(k, v)]
  | (k', v') :: r =>
      if String.eqb k' k then (k, v) :: r else (k', v') :: dict_set k v r
  end.

(** Exceptions, as far as the two [except] clauses tell them apart. *)
Inductive exn : Type :=
| PermissionError
| IndexError
| OtherException (msg : string).

(** The decoder's view of an open document.  A page is the outcome of its
    [extract_text()]: an exception, or a text that may be [None]. *)
Record PdfReader : Type := {
  is_encrypted : bool;
  reader_pages : list (exn + option string);
  reader_metadata : option (dict pdf_object)
}.

(** [Path(file_path).resolve()] with the attributes the tool reads. *)
Record Path : Type := {
  path_str : string;
  path_name : string;
  path_suffix : string;
  path_exists : bool;
  path_is_file : bool
}.

(** The file system and the decoder.  Resolving a path and reading its
    attributes are taken not to raise; opening the document and extracting
    the text of a page may. *)
Record World : Type := {
  resolve : string -> Path;
  open_reader : Path -> exn + PdfReader
}.

Inductive pdf_error : Type :=
| NotFound (file_path : string)         (* "PDF file not found: ..." *)
| NotAFile (file_path : string)         (* "Not a file: ..." *)
| NotAPdf (file_path : string)          (* "Not a PDF file: ..." *)
| Encrypted                             (* "Cannot read encrypted PDF." *)
| ParseError (e : parse_error)          (* the parser's dict, returned as is *)
| PermissionDenied (file_path : string) (* "Permission denied: ..." *)
| ExtractionFailed (e : exn).           (* "Failed to read PDF: {exc}" *)

Definition nl : string := String "010"%char EmptyString.

(** [str(n)] for an [int]. *)
Definition str_of_int (n : Z) : string := NilZero.string_of_int (Z.to_int n).

(** [l[i]] for an [int] index: negative indices count from the end. *)
Definition py_index {A : Type} (l : list A) (i : Z) : option A :=
  let n := Z.of_nat (length l) in
  if (0 <=? i) && (i <? n) then nth_error l (Z.to_nat i)
  else if (- n <=? i) && (i <? 0) then nth_error l (Z.to_nat (n + i))
  else None.

(** [x or ""] *)
Definition or_empty (x : option string) : string :=
  match x with
  | Some t => t
  | None => EmptyString
  end.

(** f"--- Page {idx + 1} ---\n{text}" *)
Definition page_part (idx : Z) (text : string) : string :=
  "--- Page " ++ str_of_int (idx + 1) ++ " ---" ++ nl ++ text.

(** The loop that fills [content_parts]. *)
Fixpoint extract_parts (reader : PdfReader) (page_indices : list Z)
  : exn + list string :=
  match page_indices with
  | [] => inr []
  | idx :: rest =>
      match py_index (reader_pages reader) idx with
      | None => inl IndexError
      | Some (inl e) => inl e
      | Some (inr t) =>
          match extract_parts reader rest with
          | inl e => inl e
          | inr parts => inr (page_part idx (or_empty t) :: parts)
          end
      end
  end.

(** [v if v else None], after [str()] *)
Definition date_entry (o : option pdf_object) : pyval :=
  match o with
  | Some d => if obj_truthy d then VStr (obj_str d) else VNone
  | None => VNone
  end.

(** [meta.get(key)] as a result value *)
Definition raw_entry (o : option pdf_object) : pyval :=
  match o with
  | Some v => VObj v
  | None => VNone
  end.

Definition metadata_record (meta : dict pdf_object) : dict pyval :=
  [ ("title", raw_entry (dict_get "/Title" meta));
    ("author", raw_entry (dict_get "/Author" meta));
    ("subject", raw_entry (dict_get "/Subject" meta));
    ("creator", raw_entry (dict_get "/Creator" meta));
    ("producer", raw_entry (dict_get "/Producer" meta));
    ("created", date_entry (dict_get "/CreationDate" meta));
    ("modified", date_entry (dict_get "/ModDate" meta)) ].

(** Truth value of [reader.metadata]: [None] and the empty dict are false. *)
Definition metadata_truthy (m : option (dict pdf_object)) : bool :=
  match m with
  | Some (_ :: _) => true
  | _ => false
  end.

Definition with_metadata (include_metadata : bool) (reader : PdfReader)
  (result : dict pyval) : dict pyval :=
  if include_metadata && metadata_truthy (reader_metadata reader) then
    match reader_metadata reader with
    | Some meta => dict_set "metadata" (VDict (metadata_record meta)) result
    | None => result
    end
  else result.

Definition handle (file_path : string) (e : exn) : pdf_error :=
  match e with
  | PermissionError => PermissionDenied file_path
  | _ => ExtractionFailed e
  end.

Definition pdf_read (w : World) (file_path : string) (pages : option string)
  (max_pages : Z) (include_metadata : bool) : pdf_error + dict pyval :=
  let path := resolve w file_path in
  if negb (path_exists path) then inl (NotFound file_path)
  else if negb (path_is_file path) then inl (NotAFile file_path)
  else if negb (String.eqb (Str.lower (path_suffix path)) ".pdf")
       then inl (NotAPdf file_path)
  else
    let max_pages := Z.max 1 (Z.min max_pages 1000) in
    match open_reader w path with
    | inl e => inl (handle file_path e)
    | inr reader =>
        if is_encrypted reader then inl Encrypted
        else
          let total_pages := Z.of_nat (length (reader_pages reader)) in
          match parse_page_range pages total_pages max_pages with
          | inl e => inl (ParseError e)
          | inr page_indices =>
              match extract_parts reader page_indices with
              | inl e => inl (handle file_path e)
              | inr content_parts =>
                  let content := Str.join (nl ++ nl) content_parts in
                  let result :=
                    [ ("path", VStr (path_str path));
                      ("name", VStr (path_name path));
                      ("total_pages", VInt total_pages);
                      ("pages_extracted",
                        VInt (Z.of_nat (length page_indices)));
                      ("content", VStr content);
                      ("char_count",
                        VInt (Z.of_nat (String.length content))) ] in
                  inr (with_metadata include_metadata reader result)
              end
          end
    end.

(** ** A sample document

    Three pages, the second without text, and a document information
    dictionary that holds a title and nothing else. *)

Definition sample_metadata : dict pdf_object :=
  [("/Title", {| obj_truthy := true; obj_str := "Report" |})].

Definition sample_reader : PdfReader :=
  {| is_encrypted := false;
     reader_pages := [inr (Some "one"); inr None; inr (Some "three")];
     reader_metadata := Some sample_metadata |}.

Definition sample_world : World :=
  {| resolve := fun p =>
       {| path_str := "/srv/" ++ p; path_name := p; path_suffix := ".PDF";
          path_exists := true; path_is_file := true |};
     open_reader := fun _ => inr sample_reader |}.

Definition sample_result : dict pyval :=
  Eval vm_compute in
    match pdf_read sample_world "r.PDF" (Some "1,3") 100 true with
    | inr r => r
    | inl _ => []
    end.

(** The sample document again, its second page now refusing to be read
    and its third page damaged. *)
Definition guarded_reader : PdfReader :=
  {| is_encrypted := false;
     reader_pages :=
       [inr (Some "one"); inl PermissionError;
        inl (OtherException "damaged stream")];
     reader_metadata := Some sample_metadata |}.

Definition guarded_world : World :=
  {| resolve := resolve sample_world;
     open_reader := fun _ => inr guarded_reader |}.

(** A document without pages. *)
Definition blank_reader : PdfReader :=
  {| is_encrypted := false; reader_pages := []; reader_metadata := None |}.

Definition blank_world : World :=
  {| resolve := resolve sample_world;
     open_reader := fun _ => inr blank_reader |}.

Definition blank_result : dict pyval :=
  Eval vm_compute in
    match pdf_read blank_world "r.pdf" (Some "ALL") 5 true with
    | inr r => r
    | inl _ => []
    end.

(** ** Vocabulary of the specification *)

(** The eight spellings of the token "all". *)
Definition all_variants : list string :=
  ["all"; "alL"; "aLl"; "aLL"; "All"; "AlL"; "ALl"; "ALL"].

(** The value of a string of decimal digits, most significant first. *)
Fixpoint decimal_from (acc : Z) (s : string) : Z :=
  match s with
  | EmptyString => acc
  | String c r => decimal_from (10 * acc + Char.decimal_value c) r
  end.

Definition decimal_number (s : string) : Z := decimal_from 0 s.

(** [n] consecutive integers in ascending order, starting at [first]. *)
Definition consecutive (first : Z) (n : nat) : list Z :=
  List.map (fun i => first + Z.of_nat i) (seq 0 n).

(** Number of occurrences of a character. *)
Fixpoint count_char (c : ascii) (s : string) : nat :=
  match s with
  | EmptyString => O
  | String d r => ((if Ascii.eqb d c then 1 else 0) + count_char c r)%nat
  end.







(** The text taken for the page of 0-based index [idx]. *)
Definition page_text (reader : PdfReader) (idx : Z) : string :=
  match nth_error (reader_pages reader) (Z.to_nat idx) with
  | Some (inr t) => or_empty t
  | _ => EmptyString
  end.


(** [max(1, min(max_pages, 1000))] *)
Definition clamp_pages (max_pages : Z) : Z := Z.max 1 (Z.min max_pages 1000).

(** The three checks made on the path before the document is opened. *)
Definition path_accepted (p : Path) : bool :=
  path_exists p && path_is_file p
  && String.eqb (Str.lower (path_suffix p)) ".pdf".

(** The text of the page of 0-based index [idx] can be extracted. *)
Definition page_readable (reader : PdfReader) (idx : Z) : Prop :=
  exists t, nth_error (reader_pages reader) (Z.to_nat idx) = Some (inr t).


(** * Properties *)

#[local] Arguments Z.mul : simpl never.
#[local] Arguments Z.add : simpl never.
#[local] Arguments Z.sub : simpl never.

(** ** Strings *)

Lemma append_assoc (a b c : string) : (a ++ b) ++ c = a ++ (b ++ c).
Proof. induction a as [|x a IH]; simpl; [reflexivity | now rewrite IH]. Qed.

Lemma append_nil_r (a : string) : a ++ "" = a.
Proof. induction a as [|x a IH]; simpl; [reflexivity | now rewrite IH]. Qed.

Lemma contains_append (c : ascii) (a b : string) :
  Str.contains c (a ++ b) = Str.contains c a || Str.contains c b.
Proof.
  induction a as [|x a IH]; simpl; [reflexivity|].
  now rewrite IH, orb_assoc.
Qed.

Lemma forallb_append (p : ascii -> bool) (a b : string) :
  Str.forallb p (a ++ b) = Str.forallb p a && Str.forallb p b.
Proof.
  induction a as [|x a IH]; simpl; [reflexivity|].
  now rewrite IH, andb_assoc.
Qed.

(** A string made of characters satisfying [p] contains no character
    that fails [p]. *)
Lemma forallb_not_contains (p : ascii -> bool) (c : ascii) (s : string) :
  p c = false -> Str.forallb p s = true -> Str.contains c s = false.
Proof.
  intros Hc. induction s as [|x s IH]; simpl; [reflexivity|].
  intros H. apply andb_prop in H as [Hx Hs].
  rewrite (IH Hs), orb_false_r.
  destruct (Ascii.eqb_spec x c) as [->|]; [congruence | reflexivity].
Qed.

Lemma split1_cut (c : ascii) (a b : string) :
  Str.contains c a = false ->
  Str.split1 c (a ++ String c b) = [a; b].
Proof.
  induction a as [|x a IH]; simpl.
  - now rewrite Ascii.eqb_refl.
  - intros H. apply orb_false_elim in H as [Hx Ha].
    now rewrite Hx, (IH Ha).
Qed.

Lemma split1_spec (c : ascii) (s : string) :
  Str.contains c s = true ->
  exists a b, s = a ++ String c b /\ Str.contains c a = false
              /\ Str.split1 c s = [a; b].
Proof.
  induction s as [|x s IH]; simpl; [discriminate|].
  destruct (Ascii.eqb_spec x c) as [->|Hx]; simpl.
  - intros _. now exists "", s.
  - intros H. destruct (IH H) as (a & b & -> & Ha & Hs).
    exists (String x a), b. simpl. rewrite Hs.
    destruct (Ascii.eqb_spec x c); [contradiction|]. now rewrite Ha.
Qed.

Lemma split_nonempty (c : ascii) (s : string) : Str.split c s <> [].
Proof.
  destruct s as [|x s]; simpl; [discriminate|].
  destruct (Ascii.eqb x c); [discriminate|].
  destruct (Str.split c s); discriminate.
Qed.



(** ** Characters *)

Ltac each_char c :=
  destruct c as [[] [] [] [] [] [] [] []]; vm_compute.

Lemma lower_is_a (c : ascii) :
  Char.lower c = "a"%char -> c = "a"%char \/ c = "A"%char.
Proof. each_char c; intros H; try discriminate H; auto. Qed.

Lemma lower_is_l (c : ascii) :
  Char.lower c = "l"%char -> c = "l"%char \/ c = "L"%char.
Proof. each_char c; intros H; try discriminate H; auto. Qed.

(** The strings that [lower()] sends to "all" are its eight spellings. *)
Lemma lower_all_iff (s : string) :
  Str.lower s = "all" <-> In s all_variants.
Proof.
  split.
  - destruct s as [|c1 [|c2 [|c3 [|c4 r]]]]; try discriminate.
    unfold Str.lower; simpl Str.map. intros H.
    injection H as H1 H2 H3.
    destruct (lower_is_a _ H1) as [-> | ->],
             (lower_is_l _ H2) as [-> | ->],
             (lower_is_l _ H3) as [-> | ->]; simpl; tauto.
  - intros H. simpl in H.
    repeat (destruct H as [<- | H]; [reflexivity|]). contradiction.
Qed.

Lemma not_all_if_contains (c : ascii) (s : string) :
  Char.lower c <> "a"%char -> Char.lower c <> "l"%char ->
  Str.contains c s = true ->
  String.eqb (Str.lower s) "all" = false.
Proof.
  intros Ha Hl Hc. apply String.eqb_neq. intros H.
  destruct s as [|c1 [|c2 [|c3 [|c4 r]]]]; try discriminate.
  unfold Str.lower in H; simpl Str.map in H. injection H as H1 H2 H3.
  simpl in Hc. rewrite orb_false_r in Hc.
  apply orb_prop in Hc as [Hc | Hc];
    [|apply orb_prop in Hc as [Hc | Hc]];
    apply Ascii.eqb_eq in Hc; subst; contradiction.
Qed.

Lemma dash_not_all (s : string) :
  Str.contains "-" s = true -> String.eqb (Str.lower s) "all" = false.
Proof. apply not_all_if_contains; vm_compute; discriminate. Qed.

Lemma comma_not_all (s : string) :
  Str.contains "," s = true -> String.eqb (Str.lower s) "all" = false.
Proof. apply not_all_if_contains; vm_compute; discriminate. Qed.

Lemma isdigit_no (c : ascii) (s : string) :
  Char.isdigit c = false -> Str.contains c s = true -> Str.isdigit s = false.
Proof.
  intros Hc Hs. destruct (Str.isdigit s) eqn:E; [|reflexivity].
  assert (Str.forallb Char.isdigit s = true) as Hf
      by (destruct s; [discriminate | exact E]).
  rewrite (forallb_not_contains _ _ _ Hc Hf) in Hs. discriminate.
Qed.

(** ** [int()] *)

Lemma decimal_value_range (c : ascii) :
  Char.is_decimal c = true -> 0 <= Char.decimal_value c <= 9.
Proof.
  unfold Char.is_decimal, Char.decimal_value. intros H.
  apply andb_prop in H as [H1 H2]. lia.
Qed.

(** A character that is neither a digit, an underscore nor a blank does not
    occur in what the scanner accepts. *)
Lemma scan_alphabet (c : ascii) :
  Char.is_decimal c = false -> Ascii.eqb c "_" = false ->
  Char.is_int_space c = false ->
  forall s q acc n, PyInt.scan q acc s = Some n -> Str.contains c s = false.
Proof.
  intros Hd Hu Hs. induction s as [|x s IH]; intros q acc n H;
    [reflexivity|].
  simpl. destruct (Ascii.eqb_spec x c) as [->|_]; simpl.
  - simpl in H. rewrite Hd, Hu, Hs in H. destruct q; discriminate.
  - simpl in H.
    destruct q, (Char.is_decimal x), (Ascii.eqb x "_"),
      (Char.is_int_space x); try discriminate; eapply IH; eassumption.
Qed.

Lemma scan_nonneg (s : string) :
  forall q acc n, 0 <= acc -> PyInt.scan q acc s = Some n -> 0 <= n.
Proof.
  induction s as [|x s IH]; intros q acc n Hacc H; simpl in H.
  - destruct q; inversion H; subst; assumption.
  - destruct (Char.is_decimal x) eqn:Hx;
      [pose proof (decimal_value_range x Hx)|];
      destruct q, (Ascii.eqb x "_"), (Char.is_int_space x);
      try discriminate; (eapply IH; [|eassumption]); lia.
Qed.

Lemma skip_blanks_contains (c : ascii) (s : string) :
  Char.is_int_space c = false ->
  Str.contains c s = Str.contains c (PyInt.skip_blanks s).
Proof.
  intros Hc. induction s as [|x s IH]; simpl; [reflexivity|].
  destruct (Char.is_int_space x) eqn:Hx; [|reflexivity].
  rewrite <- IH. destruct (Ascii.eqb_spec x c) as [->|]; [congruence|].
  reflexivity.
Qed.

Lemma int_no_comma (s : string) (n : Z) :
  PyInt.int s = Some n -> Str.contains "," s = false.
Proof.
  unfold PyInt.int, PyInt.signed. intros H.
  rewrite (skip_blanks_contains "," s) by reflexivity.
  destruct (PyInt.skip_blanks s) as [|x r]; [discriminate|].
  assert (forall q acc m t, PyInt.scan q acc t = Some m ->
                            Str.contains "," t = false) as Hscan
      by (intros; eapply scan_alphabet; [| | |eassumption]; reflexivity).
  destruct (Ascii.eqb_spec x "+") as [->|_].
  { simpl. eapply Hscan; eassumption. }
  destruct (Ascii.eqb_spec x "-") as [->|_].
  { simpl. destruct (PyInt.scan PyInt.Start 0 r) eqn:E; [|discriminate].
    eapply Hscan; eassumption. }
  eapply Hscan; eassumption.
Qed.

(** A positive value is never written with a dash. *)
Lemma int_positive_no_dash (s : string) (n : Z) :
  PyInt.int s = Some n -> 1 <= n -> Str.contains "-" s = false.
Proof.
  unfold PyInt.int, PyInt.signed. intros H Hn.
  rewrite (skip_blanks_contains "-" s) by reflexivity.
  destruct (PyInt.skip_blanks s) as [|x r]; [discriminate|].
  assert (forall q acc m t, PyInt.scan q acc t = Some m ->
                            Str.contains "-" t = false) as Hscan
      by (intros; eapply scan_alphabet; [| | |eassumption]; reflexivity).
  destruct (Ascii.eqb_spec x "+") as [->|_].
  { simpl. eapply Hscan; eassumption. }
  destruct (Ascii.eqb_spec x "-") as [->|_].
  { destruct (PyInt.scan PyInt.Start 0 r) as [m|] eqn:E; [|discriminate].
    apply scan_nonneg in E; [|lia]. simpl in H. inversion H. lia. }
  eapply Hscan; eassumption.
Qed.

(** What is left of the first dash is never negative; a part that contains
    a dash is never positive. *)
Lemma int_no_dash_nonneg (s : string) (n : Z) :
  PyInt.int s = Some n -> Str.contains "-" s = false -> 0 <= n.
Proof.
  unfold PyInt.int, PyInt.signed. intros H Hs.
  rewrite (skip_blanks_contains "-" s) in Hs by reflexivity.
  destruct (PyInt.skip_blanks s) as [|x r]; [discriminate|].
  destruct (Ascii.eqb_spec x "+") as [->|_].
  { eapply scan_nonneg; [|eassumption]; lia. }
  destruct (Ascii.eqb_spec x "-") as [->|_]; [discriminate|].
  eapply scan_nonneg; [|eassumption]; lia.
Qed.

Lemma int_dash_nonpos (s : string) (n : Z) :
  PyInt.int s = Some n -> Str.contains "-" s = true -> n <= 0.
Proof.
  intros H Hs. destruct (Z_le_gt_dec n 0) as [|Hn]; [assumption|].
  rewrite (int_positive_no_dash s n H) in Hs by lia. discriminate.
Qed.

Lemma scan_digits (s : string) :
  forall acc, Str.forallb Char.is_decimal s = true ->
  PyInt.scan PyInt.AfterDigit acc s = Some (decimal_from acc s).
Proof.
  induction s as [|x s IH]; intros acc H; simpl; [reflexivity|].
  simpl in H. apply andb_prop in H as [Hx Hs]. rewrite Hx. now apply IH.
Qed.

Lemma decimal_not_blank (c : ascii) :
  Char.is_decimal c = true ->
  Char.is_int_space c = false /\ Ascii.eqb c "+" = false
  /\ Ascii.eqb c "-" = false /\ Char.isdigit c = true.
Proof. each_char c; intros H; try discriminate H; auto. Qed.

Lemma int_digits (s : string) :
  s <> "" -> Str.forallb Char.is_decimal s = true ->
  PyInt.int s = Some (decimal_number s).
Proof.
  destruct s as [|x s]; [contradiction|]. intros _ H.
  simpl in H. apply andb_prop in H as [Hx Hs].
  destruct (decimal_not_blank x Hx) as (Hb & Hp & Hm & _).
  unfold PyInt.int, PyInt.signed. simpl. rewrite Hb, Hp, Hm. simpl.
  rewrite Hx. now apply scan_digits.
Qed.

Lemma decimal_from_nonneg (s : string) :
  forall acc, 0 <= acc -> Str.forallb Char.is_decimal s = true ->
  0 <= decimal_from acc s.
Proof.
  induction s as [|x s IH]; intros acc Hacc H; simpl; [assumption|].
  simpl in H. apply andb_prop in H as [Hx Hs].
  pose proof (decimal_value_range x Hx). apply IH; [lia | assumption].
Qed.

Lemma forallb_weaken (p q : ascii -> bool) (s : string) :
  (forall c, p c = true -> q c = true) ->
  Str.forallb p s = true -> Str.forallb q s = true.
Proof.
  intros Hpq. induction s as [|x s IH]; simpl; [reflexivity|].
  intros H. apply andb_prop in H as [Hx Hs].
  now rewrite (Hpq x Hx), (IH Hs).
Qed.

(** ** Ranges, slices and comprehensions *)

Lemma py_range_consecutive (lo hi : Z) :
  py_range lo hi = consecutive lo (Z.to_nat (hi - lo)).
Proof. reflexivity. Qed.

Lemma py_range_from_zero (hi : Z) :
  py_range 0 hi = consecutive 0 (Z.to_nat hi).
Proof. now rewrite py_range_consecutive, Z.sub_0_r. Qed.

Lemma length_consecutive (first : Z) (n : nat) :
  length (consecutive first n) = n.
Proof. unfold consecutive. now rewrite length_map, length_seq. Qed.

Lemma in_consecutive (first : Z) (n : nat) (x : Z) :
  In x (consecutive first n) <-> first <= x < first + Z.of_nat n.
Proof.
  unfold consecutive. rewrite in_map_iff. split.
  - intros (i & <- & Hi). apply in_seq in Hi. lia.
  - intros H. exists (Z.to_nat (x - first)). split; [lia|].
    apply in_seq. lia.
Qed.

Lemma firstn_seq_min (k : nat) :
  forall start n, firstn k (seq start n) = seq start (Nat.min k n).
Proof.
  induction k as [|k IH]; intros start [|n]; simpl; try reflexivity.
  now rewrite IH.
Qed.

Lemma firstn_consecutive (first : Z) (k n : nat) :
  firstn k (consecutive first n) = consecutive first (Nat.min k n).
Proof.
  unfold consecutive. now rewrite firstn_map, firstn_seq_min.
Qed.

Lemma last_consecutive (first : Z) (n : nat) (d : Z) :
  last (consecutive first (S n)) d = first + Z.of_nat n.
Proof.
  unfold consecutive. rewrite seq_S, map_app. simpl.
  now rewrite last_last.
Qed.

Lemma nth_consecutive (first : Z) (n i : nat) (d : Z) :
  (i < n)%nat -> nth i (consecutive first n) d = first + Z.of_nat i.
Proof.
  intros Hi. unfold consecutive.
  rewrite (nth_indep _ d (first + Z.of_nat 0)) by
      (now rewrite length_map, length_seq).
  rewrite (map_nth (fun i => first + Z.of_nat i)), seq_nth by assumption.
  reflexivity.
Qed.

Lemma try_map_map {A B C : Type} (g : A -> B) (f : B -> option C)
  (l : list A) :
  try_map (fun x => f (g x)) l = try_map f (List.map g l).
Proof.
  induction l as [|x l IH]; simpl; [reflexivity|]. now rewrite IH.
Qed.


Lemma try_map_some {A B : Type} (f : A -> option B) (l : list A)
  (ys : list B) :
  Forall2 (fun x y => f x = Some y) l ys -> try_map f l = Some ys.
Proof.
  induction 1 as [|x y l ys Hxy _ IH]; simpl; [reflexivity|].
  now rewrite Hxy, IH.
Qed.

Lemma first_out_of_range_none (total : Z) (l : list Z) :
  Forall (fun p => 1 <= p <= total) l <->
  first_out_of_range total l = None.
Proof.
  induction l as [|p l IH]; simpl; [split; auto|].
  split.
  - intros H. inversion H as [|? ? Hp Hl]; subst.
    destruct (p <? 1) eqn:E1; [lia|].
    destruct (p >? total) eqn:E2; [lia|]. simpl. now apply IH.
  - destruct (p <? 1) eqn:E1; [discriminate|].
    destruct (p >? total) eqn:E2; [discriminate|]. simpl.
    intros H. constructor; [lia | now apply IH].
Qed.


Lemma in_firstn {A : Type} (n : nat) (l : list A) (x : A) :
  In x (firstn n l) -> In x l.
Proof.
  intros H. rewrite <- (firstn_skipn n l). apply in_or_app. now left.
Qed.

Lemma py_slice_to_nonneg {A : Type} (l : list A) (n : Z) :
  0 <= n -> py_slice_to l n = firstn (Z.to_nat n) l.
Proof.
  intros H. unfold py_slice_to. destruct (0 <=? n) eqn:E; [reflexivity|lia].
Qed.

(** ** Which branch of the parser a string takes *)

Lemma contains_dash_cut (a b : string) :
  Str.contains "-" (a ++ "-" ++ b) = true.
Proof. rewrite contains_append. simpl. apply orb_true_r. Qed.

(** A string with a dash and no comma is cut at its first dash and both
    parts go through [int()]. *)
Lemma dash_branch (a b : string) (total_pages max_pages : Z) :
  Str.contains "-" a = false ->
  Str.contains "," (a ++ "-" ++ b) = false ->
  parse_page_range (Some (a ++ "-" ++ b)) total_pages max_pages =
  match PyInt.int a, PyInt.int b with
  | Some start, Some end_ =>
      if start >? end_ then inl (BadRange (a ++ "-" ++ b))
      else if start <? 1 then inl (PageBelowOne start)
      else if end_ >? total_pages
           then inl (PageOutOfRange end_ total_pages)
      else inr (py_range (start - 1) (Z.min end_ (start - 1 + max_pages)))
  | _, _ => inl (BadFormatValueError (a ++ "-" ++ b))
  end.
Proof.
  intros Ha Hcomma. pose proof (contains_dash_cut a b) as Hdash.
  unfold parse_page_range, parse_body.
  rewrite (dash_not_all _ Hdash).
  rewrite (isdigit_no "-" _ eq_refl Hdash), Hdash, Hcomma.
  cbn [andb negb]. change ("-" ++ b) with (String "-" b).
  rewrite (split1_cut _ _ _ Ha).
  destruct (PyInt.int a) as [start|]; [|reflexivity].
  destruct (PyInt.int b) as [end_|]; [|reflexivity].
  destruct (start >? end_), (start <? 1), (end_ >? total_pages);
    reflexivity.
Qed.

(** A string with a comma is split at every comma. *)
Lemma comma_branch (pages : string) (total_pages max_pages : Z) :
  Str.contains "," pages = true ->
  parse_page_range (Some pages) total_pages max_pages =
  match try_map PyInt.int (List.map Str.strip (Str.split "," pages)) with
  | None => inl (BadFormatValueError pages)
  | Some page_nums =>
      match first_out_of_range total_pages page_nums with
      | Some p => inl (PageOutOfRange p total_pages)
      | None => inr (List.map (fun p => p - 1)
                       (py_slice_to page_nums max_pages))
      end
  end.
Proof.
  intros Hcomma. unfold parse_page_range, parse_body.
  rewrite (comma_not_all _ Hcomma).
  rewrite (isdigit_no "," _ eq_refl Hcomma), Hcomma.
  rewrite andb_false_r.
  rewrite (try_map_map Str.strip PyInt.int).
  destruct (try_map _ _) as [nums|]; [|reflexivity].
  destruct (first_out_of_range _ _); reflexivity.
Qed.

Lemma digits_not_all (s : string) :
  Str.forallb Char.is_decimal s = true ->
  String.eqb (Str.lower s) "all" = false.
Proof.
  intros H. apply String.eqb_neq. intros Hall.
  apply lower_all_iff in Hall. simpl in Hall.
  repeat (destruct Hall as [<- | Hall]; [discriminate H|]).
  contradiction.
Qed.

(** A non-empty string of decimal digits is a single page number. *)
Lemma digit_branch (s : string) (total_pages max_pages : Z) :
  s <> "" -> Str.forallb Char.is_decimal s = true ->
  parse_page_range (Some s) total_pages max_pages =
  if (decimal_number s <? 1) || (decimal_number s >? total_pages)
  then inl (PageOutOfRange (decimal_number s) total_pages)
  else inr [decimal_number s - 1].
Proof.
  intros Hne Hd. unfold parse_page_range, parse_body.
  rewrite (digits_not_all _ Hd).
  assert (Str.isdigit s = true) as ->.
  { destruct s; [contradiction|]. unfold Str.isdigit.
    apply (forallb_weaken Char.is_decimal); [|assumption].
    intros c Hc. now apply decimal_not_blank. }
  rewrite (int_digits _ Hne Hd).
  destruct (_ || _); reflexivity.
Qed.

(** Every list the parser returns holds valid page indices and is no longer
    than [max_pages]. *)
Lemma parse_page_range_bounds (pages : option string)
  (total_pages max_pages : Z) (l : list Z) :
  1 <= max_pages ->
  parse_page_range pages total_pages max_pages = inr l ->
  Forall (fun idx => 0 <= idx < total_pages) l
  /\ Z.of_nat (length l) <= max_pages.
Proof.
  intros Hmax.
  assert (Forall (fun idx => 0 <= idx < total_pages)
            (py_range 0 (Z.min total_pages max_pages))
          /\ Z.of_nat (length (py_range 0 (Z.min total_pages max_pages)))
             <= max_pages) as Hall.
  { rewrite py_range_consecutive. split.
    - apply Forall_forall. intros x Hx. apply in_consecutive in Hx. lia.
    - rewrite length_consecutive. lia. }
  unfold parse_page_range. destruct pages as [pages|];
    [|intros H; injection H as <-; exact Hall].
  destruct (String.eqb _ _); [intros H; injection H as <-; exact Hall|].
  clear Hall.
  unfold parse_body.
  destruct (Str.isdigit pages).
  { destruct (PyInt.int pages) as [n|]; [|discriminate].
    destruct (n <? 1) eqn:E1; [discriminate|].
    destruct (n >? total_pages) eqn:E2; [discriminate|].
    simpl. intros H; injection H as <-. split.
    - repeat constructor; lia.
    - simpl. lia. }
  destruct (Str.contains "-" pages && negb (Str.contains "," pages)).
  { destruct (Str.split1 "-" pages) as [|a [|b [|? ?]]]; try discriminate.
    destruct (PyInt.int a) as [start|]; [|discriminate].
    destruct (PyInt.int b) as [end_|]; [|discriminate].
    destruct (start >? end_) eqn:E1; [discriminate|].
    destruct (start <? 1) eqn:E2; [discriminate|].
    destruct (end_ >? total_pages) eqn:E3; [discriminate|].
    intros H; injection H as <-. rewrite py_range_consecutive. split.
    - apply Forall_forall. intros x Hx. apply in_consecutive in Hx. lia.
    - rewrite length_consecutive. lia. }
  destruct (Str.contains "," pages); [|discriminate].
  destruct (try_map _ _) as [nums|]; [|discriminate].
  destruct (first_out_of_range total_pages nums) eqn:E; [discriminate|].
  intros H; injection H as <-.
  apply first_out_of_range_none in E.
  rewrite py_slice_to_nonneg by lia. split.
  - apply Forall_forall. intros x Hx. apply in_map_iff in Hx as (p & <- & Hp).
    apply in_firstn in Hp. rewrite Forall_forall in E. specialize (E p Hp).
    lia.
  - rewrite length_map. pose proof (firstn_le_length (Z.to_nat max_pages) nums).
    lia.
Qed.

(** ** The parser's rules *)

(** C1. A selection [start-end] whose two parts are integers with
    [1 <= start <= end <= total_pages], parsed with [max_pages >= 1], yields
    the ascending indices from [start-1], as many as
    [min(end-start+1, max_pages)]: the whole range up to [end-1] when it
    fits, and otherwise its first [max_pages] entries, returned as a plain
    list like any other. *)
Theorem range_selection_indices (a b : string)
  (start end_ total_pages max_pages : Z) :
  PyInt.int a = Some start -> PyInt.int b = Some end_ ->
  1 <= start -> start <= end_ -> end_ <= total_pages -> 1 <= max_pages ->
  exists l,
    parse_page_range (Some (a ++ "-" ++ b)) total_pages max_pages = inr l
    /\ l = consecutive (start - 1)
             (Z.to_nat (Z.min (end_ - start + 1) max_pages))
    /\ l = firstn (Z.to_nat max_pages)
             (consecutive (start - 1) (Z.to_nat (end_ - start + 1)))
    /\ Z.of_nat (length l) <= max_pages
    /\ (end_ - start + 1 <= max_pages ->
        l = consecutive (start - 1) (Z.to_nat (end_ - start + 1))
        /\ last l 0 = end_ - 1).
Proof.
  intros Ha Hb Hs Hse He Hm.
  assert (Str.contains "," (a ++ "-" ++ b) = false) as Hcomma.
  { rewrite contains_append. simpl.
    now rewrite (int_no_comma _ _ Ha), (int_no_comma _ _ Hb). }
  rewrite (dash_branch a b total_pages max_pages
             (int_positive_no_dash _ _ Ha Hs) Hcomma), Ha, Hb.
  destruct (start >? end_) eqn:E1; [lia|].
  destruct (start <? 1) eqn:E2; [lia|].
  destruct (end_ >? total_pages) eqn:E3; [lia|].
  eexists. split; [reflexivity|]. rewrite py_range_consecutive.
  replace (Z.min end_ (start - 1 + max_pages) - (start - 1))
    with (Z.min (end_ - start + 1) max_pages) by lia.
  split; [reflexivity|]. split; [|split].
  - rewrite firstn_consecutive. f_equal. lia.
  - rewrite length_consecutive. lia.
  - intros Hfit. rewrite Z.min_l by lia. split; [reflexivity|].
    replace (Z.to_nat (end_ - start + 1))
      with (S (Z.to_nat (end_ - start))) by lia.
    rewrite last_consecutive. lia.
Qed.

Lemma range_selection_indices_witness :
  exists l,
    parse_page_range (Some ("3" ++ "-" ++ "7")) 9 3 = inr l
    /\ l = consecutive (3 - 1) (Z.to_nat (Z.min (7 - 3 + 1) 3))
    /\ l = firstn (Z.to_nat 3) (consecutive (3 - 1) (Z.to_nat (7 - 3 + 1)))
    /\ Z.of_nat (length l) <= 3
    /\ (7 - 3 + 1 <= 3 ->
        l = consecutive (3 - 1) (Z.to_nat (7 - 3 + 1))
        /\ last l 0 = 7 - 1).
Proof.
  apply (range_selection_indices "3" "7" 3 7 9 3);
    [reflexivity | reflexivity | lia | lia | lia | lia].
Defined.

(** C2. Whenever the parser returns a list, for any selection (or none),
    [total_pages >= 0] and [max_pages >= 1], every index in it lies in
    [0, total_pages) and the list has at most [max_pages] entries. *)
Theorem parsed_indices_within_document (pages : option string)
  (total_pages max_pages : Z) (l : list Z) :
  0 <= total_pages -> 1 <= max_pages ->
  parse_page_range pages total_pages max_pages = inr l ->
  Forall (fun idx => 0 <= idx < total_pages) l
  /\ Z.of_nat (length l) <= max_pages.
Proof. intros _. apply parse_page_range_bounds. Qed.

Lemma parsed_indices_within_document_witness :
  Forall (fun idx => 0 <= idx < 6) [3; 0; 5]
  /\ Z.of_nat (length [3; 0; 5]) <= 3.
Proof.
  apply (parsed_indices_within_document (Some "4, 1 ,6,2") 6 3 [3; 0; 5]);
    [lia | lia | reflexivity].
Defined.

(** C4. With [total_pages >= 0] and [max_pages >= 1], no selection, or any
    spelling of "all" in upper and lower case, yields exactly
    [min(total_pages, max_pages)] ascending indices starting at 0. *)
Theorem all_pages_selection (total_pages max_pages : Z) :
  0 <= total_pages -> 1 <= max_pages ->
  parse_page_range None total_pages max_pages
  = inr (consecutive 0 (Z.to_nat (Z.min total_pages max_pages)))
  /\ (forall s, In s all_variants ->
        parse_page_range (Some s) total_pages max_pages
        = inr (consecutive 0 (Z.to_nat (Z.min total_pages max_pages))))
  /\ Z.of_nat (length (consecutive 0
                         (Z.to_nat (Z.min total_pages max_pages))))
     = Z.min total_pages max_pages
  /\ (forall i, 0 <= i < Z.min total_pages max_pages ->
        nth (Z.to_nat i)
          (consecutive 0 (Z.to_nat (Z.min total_pages max_pages))) 0 = i).
Proof.
  intros Ht Hm. split; [|split; [|split]].
  - simpl. now rewrite py_range_from_zero.
  - intros s Hs. apply lower_all_iff in Hs.
    unfold parse_page_range. rewrite Hs. simpl.
    now rewrite py_range_from_zero.
  - rewrite length_consecutive. lia.
  - intros i Hi. rewrite nth_consecutive by lia. lia.
Qed.

Lemma all_pages_selection_witness :
  parse_page_range None 4 100 = inr (consecutive 0 (Z.to_nat (Z.min 4 100)))
  /\ (forall s, In s all_variants ->
        parse_page_range (Some s) 4 100
        = inr (consecutive 0 (Z.to_nat (Z.min 4 100))))
  /\ Z.of_nat (length (consecutive 0 (Z.to_nat (Z.min 4 100))))
     = Z.min 4 100
  /\ (forall i, 0 <= i < Z.min 4 100 ->
        nth (Z.to_nat i) (consecutive 0 (Z.to_nat (Z.min 4 100))) 0 = i).
Proof. apply (all_pages_selection 4 100); lia. Defined.



(** C6. For a selection cut at its first dash into two parts that are both
    integers, the checks come in this order: [start > end] is an invalid
    range (as for "5-2"); otherwise [start < 1] or [end > total_pages] is a
    page out of range (as for "0-2"). *)
Theorem range_error_order (a b : string)
  (start end_ total_pages max_pages : Z) :
  Str.contains "-" a = false ->
  PyInt.int a = Some start -> PyInt.int b = Some end_ ->
  (end_ < start ->
   exists e,
     parse_page_range (Some (a ++ "-" ++ b)) total_pages max_pages = inl e
     /\ kind_of e = KInvalidRange)
  /\ (start <= end_ -> start < 1 \/ total_pages < end_ ->
      exists e,
        parse_page_range (Some (a ++ "-" ++ b)) total_pages max_pages = inl e
        /\ kind_of e = KPageOutOfRange)
  /\ parse_page_range (Some "5-2") total_pages max_pages
     = inl (BadRange "5-2")
  /\ parse_page_range (Some "0-2") total_pages max_pages
     = inl (PageBelowOne 0).
Proof.
  intros Hdash Ha Hb.
  assert (Str.contains "," (a ++ "-" ++ b) = false) as Hcomma.
  { rewrite contains_append. simpl.
    now rewrite (int_no_comma _ _ Ha), (int_no_comma _ _ Hb). }
  rewrite (dash_branch a b total_pages max_pages Hdash Hcomma), Ha, Hb.
  split; [|split; [|split; reflexivity]].
  - intros H. destruct (start >? end_) eqn:E; [|lia].
    eexists; split; reflexivity.
  - intros H1 H2. destruct (start >? end_) eqn:E1; [lia|].
    destruct (start <? 1) eqn:E2; [eexists; split; reflexivity|].
    destruct (end_ >? total_pages) eqn:E3; [eexists; split; reflexivity|].
    lia.
Qed.

Lemma range_error_order_witness :
  (4 < 9 ->
   exists e,
     parse_page_range (Some ("9" ++ "-" ++ "4")) 20 5 = inl e
     /\ kind_of e = KInvalidRange)
  /\ (9 <= 4 -> 9 < 1 \/ 20 < 4 ->
      exists e,
        parse_page_range (Some ("9" ++ "-" ++ "4")) 20 5 = inl e
        /\ kind_of e = KPageOutOfRange)
  /\ parse_page_range (Some "5-2") 20 5 = inl (BadRange "5-2")
  /\ parse_page_range (Some "0-2") 20 5 = inl (PageBelowOne 0).
Proof.
  apply (range_error_order "9" "4" 9 4 20 5); reflexivity.
Defined.

(** C10. A selection that starts with a dash and has no comma, such as
    "-3", is an invalid format, not a page out of range: the part before the
    dash is empty and is not an integer.  More generally a selection cut at
    its first dash is an invalid format as soon as one side is not an
    integer. *)
Theorem dash_with_non_integer_side (a b : string)
  (total_pages max_pages : Z) :
  Str.contains "-" a = false ->
  Str.contains "," (a ++ "-" ++ b) = false ->
  (a = "" \/ PyInt.int a = None \/ PyInt.int b = None) ->
  exists e,
    parse_page_range (Some (a ++ "-" ++ b)) total_pages max_pages = inl e
    /\ e = BadFormatValueError (a ++ "-" ++ b)
    /\ kind_of e = KInvalidFormat
    /\ kind_of e <> KPageOutOfRange.
Proof.
  intros Hdash Hcomma H.
  rewrite (dash_branch a b total_pages max_pages Hdash Hcomma).
  assert (PyInt.int a = None \/ PyInt.int b = None) as [Ha | Hb]
      by (destruct H as [-> | [H | H]]; auto).
  - rewrite Ha. eexists. repeat split. discriminate.
  - rewrite Hb. destruct (PyInt.int a); eexists; repeat split; discriminate.
Qed.

Lemma dash_with_non_integer_side_witness :
  exists e,
    parse_page_range (Some ("" ++ "-" ++ "3")) 10 5 = inl e
    /\ e = BadFormatValueError ("" ++ "-" ++ "3")
    /\ kind_of e = KInvalidFormat
    /\ kind_of e <> KPageOutOfRange.
Proof.
  apply (dash_with_non_integer_side "" "3" 10 5);
    [reflexivity | reflexivity | left; reflexivity].
Defined.



Lemma count_char_append (c : ascii) (a b : string) :
  count_char c (a ++ b) = (count_char c a + count_char c b)%nat.
Proof.
  induction a as [|x a IH]; simpl; [reflexivity|]. rewrite IH. lia.
Qed.

Lemma count_char_zero (c : ascii) (s : string) :
  Str.contains c s = false -> count_char c s = 0%nat.
Proof.
  induction s as [|x s IH]; simpl; [reflexivity|].
  intros H. apply orb_false_elim in H as [-> Hs]. now rewrite IH.
Qed.

Lemma count_char_contains (c : ascii) (s : string) :
  (1 <= count_char c s)%nat -> Str.contains c s = true.
Proof.
  intros H. destruct (Str.contains c s) eqn:E; [reflexivity|].
  rewrite (count_char_zero _ _ E) in H. lia.
Qed.

(** C7, as the code has it.  The dash rule takes every selection with at
    least one dash and no comma, and cuts it at the first dash.  A selection
    with two or more dashes and no comma therefore never yields pages: it is
    an invalid format when a side is not an integer; when both are, the
    second is not positive and the first not negative, and the result is an
    invalid range if [start > end], and otherwise ([start = end = 0]) a page
    out of range. *)
Theorem several_dashes_selection (pages : string)
  (total_pages max_pages : Z) :
  (2 <= count_char "-" pages)%nat ->
  Str.contains "," pages = false ->
  exists a b,
    pages = a ++ "-" ++ b
    /\ Str.contains "-" a = false /\ Str.contains "-" b = true
    /\ (exists e,
          parse_page_range (Some pages) total_pages max_pages = inl e)
    /\ match PyInt.int a, PyInt.int b with
       | Some start, Some end_ =>
           0 <= start /\ end_ <= 0
           /\ (end_ < start ->
               parse_page_range (Some pages) total_pages max_pages
               = inl (BadRange pages))
           /\ (start <= end_ ->
               parse_page_range (Some pages) total_pages max_pages
               = inl (PageBelowOne 0))
       | _, _ =>
           parse_page_range (Some pages) total_pages max_pages
           = inl (BadFormatValueError pages)
       end.
Proof.
  intros Hcount Hcomma.
  destruct (split1_spec "-" pages) as (a & b & -> & Ha & _).
  { apply count_char_contains. lia. }
  assert (Str.contains "-" b = true) as Hb.
  { apply count_char_contains. rewrite count_char_append in Hcount.
    rewrite (count_char_zero _ _ Ha) in Hcount. simpl in Hcount. lia. }
  exists a, b. change ("-" ++ b) with (String "-" b).
  split; [reflexivity|]. split; [assumption|]. split; [assumption|].
  pose proof (dash_branch a b total_pages max_pages Ha Hcomma) as Hbr.
  change ("-" ++ b) with (String "-" b) in Hbr. rewrite Hbr.
  destruct (PyInt.int a) as [start|] eqn:Ea;
    [|split; [eexists|]; reflexivity].
  destruct (PyInt.int b) as [end_|] eqn:Eb;
    [|split; [eexists|]; reflexivity].
  pose proof (int_no_dash_nonneg _ _ Ea Ha) as Hs.
  pose proof (int_dash_nonpos _ _ Eb Hb) as He.
  destruct (start >? end_) eqn:E1.
  - split; [eexists; reflexivity|]. repeat split; try assumption. lia.
  - assert (start = 0) as -> by lia. simpl.
    split; [eexists; reflexivity|]. repeat split; try assumption. lia.
Qed.

Lemma several_dashes_selection_witness :
  exists a b,
    "1-2-3" = a ++ "-" ++ b
    /\ Str.contains "-" a = false /\ Str.contains "-" b = true
    /\ (exists e, parse_page_range (Some "1-2-3") 10 5 = inl e)
    /\ match PyInt.int a, PyInt.int b with
       | Some start, Some end_ =>
           0 <= start /\ end_ <= 0
           /\ (end_ < start ->
               parse_page_range (Some "1-2-3") 10 5 = inl (BadRange "1-2-3"))
           /\ (start <= end_ ->
               parse_page_range (Some "1-2-3") 10 5 = inl (PageBelowOne 0))
       | _, _ =>
           parse_page_range (Some "1-2-3") 10 5
           = inl (BadFormatValueError "1-2-3")
       end.
Proof.
  apply (several_dashes_selection "1-2-3" 10 5); [simpl; lia | reflexivity].
Defined.

(** C7, as the claim has it, fails on "2--4": two dashes, no comma, not a
    digit string, and yet the error is an invalid range, not an invalid
    format. *)
Lemma two_dashes_invalid_range :
  count_char "-" "2--4" = 2%nat
  /\ Str.contains "," "2--4" = false
  /\ Str.isdigit "2--4" = false
  /\ parse_page_range (Some "2--4") 10 5 = inl (BadRange "2--4")
  /\ ~ (exists e, parse_page_range (Some "2--4") 10 5 = inl e
                  /\ kind_of e = KInvalidFormat).
Proof.
  repeat split. intros (e & H & Hk).
  vm_compute in H. injection H as <-. discriminate Hk.
Qed.

(** ** Page markers *)

Lemma string_of_uint_decimal (u : Decimal.uint) :
  Str.forallb Char.is_decimal (NilEmpty.string_of_uint u) = true.
Proof. induction u; simpl; try rewrite IHu; reflexivity. Qed.

(** [str(n)] of a natural number is a non-empty string of decimals. *)
Lemma str_of_int_decimal (n : Z) :
  0 <= n ->
  exists c r, str_of_int n = String c r /\ Char.is_decimal c = true
              /\ Str.forallb Char.is_decimal r = true.
Proof.
  intros Hn. unfold str_of_int.
  destruct n as [|p|p]; [now exists "0"%char, "" | | lia].
  simpl. unfold NilZero.string_of_uint.
  pose proof (string_of_uint_decimal (Pos.to_uint p)) as H.
  destruct (Pos.to_uint p) eqn:E.
  1: now exists "0"%char, "".
  all: simpl in H |- *; eexists; eexists; (split; [reflexivity|]);
    split; [reflexivity | exact H].
Qed.










(** ** The orchestrator *)

Lemma py_index_in_bounds {A : Type} (l : list A) (i : Z) :
  0 <= i < Z.of_nat (length l) ->
  py_index l i = nth_error l (Z.to_nat i).
Proof.
  intros H. unfold py_index.
  destruct (0 <=? i) eqn:E1; [|lia].
  destruct (i <? Z.of_nat (length l)) eqn:E2; [reflexivity|lia].
Qed.

Lemma extract_parts_spec (reader : PdfReader) (l : list Z) :
  forall parts,
  Forall (fun idx => 0 <= idx < Z.of_nat (length (reader_pages reader))) l ->
  extract_parts reader l = inr parts ->
  parts = List.map (fun idx => page_part idx (page_text reader idx)) l.
Proof.
  induction l as [|idx l IH]; intros parts Hb H; simpl in H.
  - now injection H as <-.
  - inversion Hb as [|? ? Hidx Hl]; subst.
    rewrite (py_index_in_bounds _ _ Hidx) in H. unfold page_text. simpl.
    destruct (nth_error _ _) as [[e|t]|]; try discriminate.
    destruct (extract_parts reader l) as [e|ps]; [discriminate|].
    injection H as <-. f_equal. now apply IH.
Qed.

Lemma dict_get_set_other {V : Type} (k k' : string) (v : V) (d : dict V) :
  k <> k' -> dict_get k (dict_set k' v d) = dict_get k d.
Proof.
  intros Hk. induction d as [|[k0 v0] d IH]; simpl.
  - destruct (String.eqb_spec k' k); [congruence | reflexivity].
  - destruct (String.eqb_spec k0 k') as [->|].
    + simpl. destruct (String.eqb_spec k' k); [congruence|reflexivity].
    + simpl. now rewrite IH.
Qed.

Lemma dict_get_set_same {V : Type} (k : string) (v : V) (d : dict V) :
  dict_get k (dict_set k v d) = Some v.
Proof.
  induction d as [|[k0 v0] d IH]; simpl.
  - now rewrite String.eqb_refl.
  - destruct (String.eqb_spec k0 k) as [->|Hne]; simpl.
    + now rewrite String.eqb_refl.
    + destruct (String.eqb_spec k0 k); [contradiction | exact IH].
Qed.

Lemma dict_get_with_metadata (k : string) (inc : bool) (reader : PdfReader)
  (result : dict pyval) :
  k <> "metadata" ->
  dict_get k (with_metadata inc reader result) = dict_get k result.
Proof.
  intros Hk. unfold with_metadata.
  destruct (inc && _); [|reflexivity].
  destruct (reader_metadata reader); [|reflexivity].
  now apply dict_get_set_other.
Qed.

(** What a successful call has gone through. *)
Lemma pdf_read_success (w : World) (file_path : string)
  (pages : option string) (max_pages : Z) (include_metadata : bool)
  (r : dict pyval) :
  pdf_read w file_path pages max_pages include_metadata = inr r ->
  exists reader page_indices,
    open_reader w (resolve w file_path) = inr reader
    /\ parse_page_range pages (Z.of_nat (length (reader_pages reader)))
         (Z.max 1 (Z.min max_pages 1000)) = inr page_indices
    /\ r = with_metadata include_metadata reader
             (let content :=
                Str.join (nl ++ nl)
                  (List.map (fun idx => page_part idx (page_text reader idx))
                     page_indices) in
              [ ("path", VStr (path_str (resolve w file_path)));
                ("name", VStr (path_name (resolve w file_path)));
                ("total_pages",
                  VInt (Z.of_nat (length (reader_pages reader))));
                ("pages_extracted", VInt (Z.of_nat (length page_indices)));
                ("content", VStr content);
                ("char_count", VInt (Z.of_nat (String.length content))) ]).
Proof.
  unfold pdf_read. intros H.
  destruct (negb (path_exists _)); [discriminate|].
  destruct (negb (path_is_file _)); [discriminate|].
  destruct (negb (String.eqb _ _)); [discriminate|].
  destruct (open_reader w _) as [e|reader]; [discriminate|].
  destruct (is_encrypted reader); [discriminate|].
  destruct (parse_page_range _ _ _) as [e|page_indices] eqn:Hparse;
    [discriminate|].
  destruct (extract_parts reader page_indices) as [e|parts] eqn:Hparts;
    [discriminate|].
  exists reader, page_indices. split; [reflexivity|]. split; [exact Hparse|].
  apply parse_page_range_bounds in Hparse as [Hb _]; [|lia].
  apply extract_parts_spec in Hparts; [|exact Hb]. subst parts.
  now injection H as <-.
Qed.



(** C8, as the code has it.  In every successful result the [metadata]
    key is missing altogether when [include_metadata] is false or the
    document has no metadata ([None] or an empty dictionary).  When metadata
    is included, the record always has the keys [created] and [modified]:
    each holds the string of its date when the document has one that is
    true, and a null value otherwise. *)
Theorem metadata_field (w : World) (file_path : string)
  (pages : option string) (max_pages : Z) (include_metadata : bool)
  (r : dict pyval) :
  pdf_read w file_path pages max_pages include_metadata = inr r ->
  exists reader,
    open_reader w (resolve w file_path) = inr reader
    /\ (include_metadata = false \/ reader_metadata reader = None
        \/ reader_metadata reader = Some [] ->
        dict_get "metadata" r = None)
    /\ (forall meta,
          include_metadata = true -> reader_metadata reader = Some meta ->
          meta <> [] ->
          exists md,
            dict_get "metadata" r = Some (VDict md)
            /\ (forall d, dict_get "/CreationDate" meta = Some d ->
                  obj_truthy d = true ->
                  dict_get "created" md = Some (VStr (obj_str d)))
            /\ (dict_get "/CreationDate" meta = None
                \/ (exists d, dict_get "/CreationDate" meta = Some d
                              /\ obj_truthy d = false) ->
                dict_get "created" md = Some VNone)
            /\ (forall d, dict_get "/ModDate" meta = Some d ->
                  obj_truthy d = true ->
                  dict_get "modified" md = Some (VStr (obj_str d)))
            /\ (dict_get "/ModDate" meta = None
                \/ (exists d, dict_get "/ModDate" meta = Some d
                              /\ obj_truthy d = false) ->
                dict_get "modified" md = Some VNone)).
Proof.
  intros H.
  destruct (pdf_read_success _ _ _ _ _ _ H)
    as (reader & page_indices & Hopen & _ & ->).
  exists reader. split; [exact Hopen|]. unfold with_metadata. split.
  - intros [-> | [Hm | Hm]]; [reflexivity | |]; rewrite Hm;
      destruct include_metadata; reflexivity.
  - intros meta -> Hm Hne. rewrite Hm.
    destruct meta as [|entry meta]; [contradiction|].
    cbn [andb metadata_truthy]. eexists.
    split; [apply dict_get_set_same|].
    unfold metadata_record.
    cbn [dict_get String.eqb Ascii.eqb Bool.eqb]. cbv iota.
    unfold date_entry. repeat split.
    + intros d -> ->. reflexivity.
    + intros [-> | (d & -> & ->)]; reflexivity.
    + intros d -> ->. reflexivity.
    + intros [-> | (d & -> & ->)]; reflexivity.
Qed.

Lemma metadata_field_witness :
  exists reader,
    open_reader sample_world (resolve sample_world "r.PDF") = inr reader
    /\ (true = false \/ reader_metadata reader = None
        \/ reader_metadata reader = Some [] ->
        dict_get "metadata" sample_result = None)
    /\ (forall meta,
          true = true -> reader_metadata reader = Some meta ->
          meta <> [] ->
          exists md,
            dict_get "metadata" sample_result = Some (VDict md)
            /\ (forall d, dict_get "/CreationDate" meta = Some d ->
                  obj_truthy d = true ->
                  dict_get "created" md = Some (VStr (obj_str d)))
            /\ (dict_get "/CreationDate" meta = None
                \/ (exists d, dict_get "/CreationDate" meta = Some d
                              /\ obj_truthy d = false) ->
                dict_get "created" md = Some VNone)
            /\ (forall d, dict_get "/ModDate" meta = Some d ->
                  obj_truthy d = true ->
                  dict_get "modified" md = Some (VStr (obj_str d)))
            /\ (dict_get "/ModDate" meta = None
                \/ (exists d, dict_get "/ModDate" meta = Some d
                              /\ obj_truthy d = false) ->
                dict_get "modified" md = Some VNone)).
Proof.
  apply (metadata_field sample_world "r.PDF" (Some "1,3") 100 true
           sample_result).
  vm_compute. reflexivity.
Defined.

(** C8, as the claim has it, fails on the sample document: it has metadata
    but no creation date, metadata is included, and the record still has
    the key [created], with a null value. *)
Lemma absent_date_is_null_entry :
  pdf_read sample_world "r.PDF" (Some "1,3") 100 true = inr sample_result
  /\ dict_get "/CreationDate" sample_metadata = None
  /\ exists md,
       dict_get "metadata" sample_result = Some (VDict md)
       /\ dict_get "created" md = Some VNone
       /\ dict_get "created" md <> None.
Proof.
  split; [vm_compute; reflexivity|]. split; [reflexivity|].
  eexists. split; [vm_compute; reflexivity|].
  split; [reflexivity | discriminate].
Qed.

(** * Further properties of the parser *)

(** Case analysis along the branches of the parser, innermost tests
    first. *)
Ltac branch_cases H :=
  repeat match type of H with
    | context [match ?x with _ => _ end] =>
        lazymatch x with
        | context [match _ with _ => _ end] => fail
        | _ => let E := fresh "E" in destruct x eqn:E; try discriminate H
        end
    end.

Ltac parser_cases H :=
  unfold parse_page_range, parse_body in H |- *; branch_cases H.

(** X1. Whether a selection is rejected, and with which error, does not
    depend on [max_pages]. *)
Theorem errors_ignore_max_pages (pages : option string)
  (total_pages m1 m2 : Z) (e : parse_error) :
  parse_page_range pages total_pages m1 = inl e ->
  parse_page_range pages total_pages m2 = inl e.
Proof. intros H. parser_cases H; exact H. Qed.

Lemma errors_ignore_max_pages_witness :
  parse_page_range (Some "2, 9") 5 100 = inl (PageOutOfRange 9 5).
Proof.
  apply (errors_ignore_max_pages (Some "2, 9") 5 1 100 (PageOutOfRange 9 5)).
  reflexivity.
Defined.

Lemma firstn_one {A : Type} (n : nat) (x : A) :
  (1 <= n)%nat -> firstn n [x] = [x].
Proof. intros H. destruct n; [lia | now rewrite firstn_cons, firstn_nil]. Qed.

(** X2. Lowering [max_pages] (but not below 1) only cuts the result short:
    the pages returned for the smaller limit are the first ones returned for
    the larger. *)
Theorem smaller_limit_is_prefix (pages : option string)
  (total_pages m1 m2 : Z) (l : list Z) :
  1 <= m1 -> m1 <= m2 ->
  parse_page_range pages total_pages m2 = inr l ->
  parse_page_range pages total_pages m1 = inr (firstn (Z.to_nat m1) l).
Proof.
  intros H1 H12 H. parser_cases H; injection H as <-; f_equal.
  - rewrite !py_range_from_zero, firstn_consecutive. f_equal. lia.
  - symmetry. apply firstn_one. lia.
  - rewrite !py_range_consecutive, firstn_consecutive. f_equal. lia.
  - rewrite !py_slice_to_nonneg by lia.
    rewrite firstn_map. f_equal. rewrite firstn_firstn. f_equal. lia.
  - rewrite !py_range_from_zero, firstn_consecutive. f_equal. lia.
Qed.

Lemma smaller_limit_is_prefix_witness :
  parse_page_range (Some "4,2,4,1") 5 2
  = inr (firstn (Z.to_nat 2) [3; 1; 3; 0]).
Proof.
  apply (smaller_limit_is_prefix (Some "4,2,4,1") 5 2 100 [3; 1; 3; 0]);
    [lia | lia | reflexivity].
Defined.

Lemma first_out_of_range_longer (t t' : Z) (nums : list Z) :
  t <= t' -> first_out_of_range t nums = None ->
  first_out_of_range t' nums = None.
Proof.
  intros Ht H. apply first_out_of_range_none.
  apply first_out_of_range_none in H.
  eapply Forall_impl; [|exact H]. simpl. intros; lia.
Qed.

(** X3. A selection other than "all" that is accepted for a document is
    accepted, with the same pages, for any longer document. *)
Theorem selection_stable_for_longer_document (pages : string)
  (total_pages total_pages' max_pages : Z) (l : list Z) :
  String.eqb (Str.lower pages) "all" = false ->
  total_pages <= total_pages' ->
  parse_page_range (Some pages) total_pages max_pages = inr l ->
  parse_page_range (Some pages) total_pages' max_pages = inr l.
Proof.
  intros Hall Ht H. unfold parse_page_range in H |- *. rewrite Hall in H |- *.
  unfold parse_body in H |- *. branch_cases H.
  all: try (erewrite first_out_of_range_longer by eassumption; exact H).
  all: repeat match goal with
         | Hc : (_ || _) = false |- _ =>
             apply orb_false_elim in Hc as [? ?]
         end.
  all: repeat match goal with
         | Hc : ?c = false |- context [?c] => rewrite Hc
         end; cbn [orb].
  all: match goal with
       | |- context [?n >? ?t] =>
           destruct (n >? t) eqn:?; [lia | exact H]
       end.
Qed.

Lemma selection_stable_for_longer_document_witness :
  parse_page_range (Some "2-4") 9 3 = inr [1; 2; 3].
Proof.
  apply (selection_stable_for_longer_document "2-4" 4 9 3 [1; 2; 3]);
    [reflexivity | lia | reflexivity].
Defined.

Lemma try_map_length {A B : Type} (f : A -> option B) (l : list A) :
  forall ys, try_map f l = Some ys -> length ys = length l.
Proof.
  induction l as [|x l IH]; simpl; intros ys H.
  - now injection H as <-.
  - destruct (f x); [|discriminate].
    destruct (try_map f l) as [zs|]; [|discriminate].
    injection H as <-. simpl. now rewrite (IH zs).
Qed.

Lemma length_split_positive (c : ascii) (s : string) :
  (1 <= length (Str.split c s))%nat.
Proof.
  pose proof (split_nonempty c s). destruct (Str.split c s);
    [contradiction | simpl; lia].
Qed.

Lemma explicit_selection_length (pages : string)
  (total_pages max_pages : Z) (l : list Z) :
  String.eqb (Str.lower pages) "all" = false -> 1 <= max_pages ->
  parse_page_range (Some pages) total_pages max_pages = inr l ->
  (1 <= length l)%nat.
Proof.
  intros Hall Hm H. unfold parse_page_range in H. rewrite Hall in H.
  unfold parse_body in H. branch_cases H; injection H as <-.
  - simpl. lia.
  - rewrite py_range_consecutive, length_consecutive. lia.
  - rewrite length_map, py_slice_to_nonneg, length_firstn by lia.
    match goal with
    | Ht : try_map _ _ = Some _ |- _ => rewrite (try_map_length _ _ _ Ht)
    end.
    pose proof (length_split_positive "," pages). lia.
Qed.

(** X4. With [max_pages >= 1], an accepted selection other than "all"
    always yields at least one page. *)
Theorem explicit_selection_not_empty (pages : string)
  (total_pages max_pages : Z) (l : list Z) :
  String.eqb (Str.lower pages) "all" = false -> 1 <= max_pages ->
  parse_page_range (Some pages) total_pages max_pages = inr l ->
  (1 <= length l)%nat.
Proof. apply explicit_selection_length. Qed.

Lemma explicit_selection_not_empty_witness :
  (1 <= length [2; 2])%nat.
Proof.
  apply (explicit_selection_not_empty "3, 3" 4 7 [2; 2]);
    [reflexivity | lia | reflexivity].
Defined.

(** X5. A selection without a comma (none, "all", one page or a range)
    yields a run of consecutive indices in ascending order. *)
Theorem no_comma_gives_consecutive_run (pages : option string)
  (total_pages max_pages : Z) (l : list Z) :
  match pages with
  | Some s => Str.contains "," s = false
  | None => True
  end ->
  parse_page_range pages total_pages max_pages = inr l ->
  exists first, l = consecutive first (length l).
Proof.
  intros Hc H. parser_cases H; injection H as <-.
  - exists 0. now rewrite py_range_from_zero, length_consecutive.
  - eexists (_ - 1). unfold consecutive. simpl. now rewrite Z.add_0_r.
  - eexists. now rewrite py_range_consecutive, length_consecutive.
  - congruence.
  - exists 0. now rewrite py_range_from_zero, length_consecutive.
Qed.

Lemma no_comma_gives_consecutive_run_witness :
  exists first, [4; 5; 6] = consecutive first (length [4; 5; 6]).
Proof.
  apply (no_comma_gives_consecutive_run (Some " 5 - 9") 20 3 [4; 5; 6]);
    reflexivity.
Defined.

(** X6. The plain invalid-format error of the last rule is returned exactly
    for the strings no earlier rule takes: not a spelling of "all", not all
    digits, and with neither a dash nor a comma.  The empty string and a page
    number with a blank beside it are such strings. *)
Theorem last_rule_exactly (pages shown : string) (total_pages max_pages : Z) :
  parse_page_range (Some pages) total_pages max_pages = inl (BadFormat shown)
  <-> (shown = pages
       /\ String.eqb (Str.lower pages) "all" = false
       /\ Str.isdigit pages = false
       /\ Str.contains "-" pages = false
       /\ Str.contains "," pages = false).
Proof.
  split.
  - intros H. parser_cases H; injection H as <-.
    repeat split; try reflexivity; try assumption.
    match goal with
    | Hd : _ && _ = false |- _ =>
        cbn [negb] in Hd; rewrite andb_true_r in Hd; exact Hd
    end.
  - intros (-> & Hall & Hd & Hdash & Hcomma).
    unfold parse_page_range, parse_body.
    now rewrite Hall, Hd, Hdash, Hcomma.
Qed.

Lemma first_out_of_range_app (total p : Z) (before rest : list Z) :
  Forall (fun q => 1 <= q <= total) before ->
  p < 1 \/ total < p ->
  first_out_of_range total (before ++ p :: rest) = Some p.
Proof.
  intros Hb Hp. induction Hb as [|q before Hq _ IH]; simpl.
  - destruct (p <? 1) eqn:E1; [reflexivity|].
    destruct (p >? total) eqn:E2; [reflexivity | lia].
  - destruct (q <? 1) eqn:E1; [lia|].
    destruct (q >? total) eqn:E2; [lia | exact IH].
Qed.

(** X7. In a comma list of integers, the page cited by the out-of-range
    error is the first offending one in the order given. *)
Theorem comma_error_cites_first_offender (pages : string)
  (total_pages max_pages p : Z) (before rest : list Z) :
  Str.contains "," pages = true ->
  Forall2 (fun tok n => PyInt.int tok = Some n)
    (List.map Str.strip (Str.split "," pages)) (before ++ p :: rest) ->
  Forall (fun q => 1 <= q <= total_pages) before ->
  p < 1 \/ total_pages < p ->
  parse_page_range (Some pages) total_pages max_pages
  = inl (PageOutOfRange p total_pages).
Proof.
  intros Hc Hnums Hb Hp. rewrite (comma_branch _ _ _ Hc).
  rewrite (try_map_some _ _ _ Hnums).
  now rewrite (first_out_of_range_app _ _ _ _ Hb Hp).
Qed.

Lemma comma_error_cites_first_offender_witness :
  parse_page_range (Some "2,7,0,9") 5 10 = inl (PageOutOfRange 7 5).
Proof.
  apply (comma_error_cites_first_offender "2,7,0,9" 5 10 7 [2] [0; 9]).
  - reflexivity.
  - repeat constructor.
  - repeat constructor; lia.
  - lia.
Defined.











Lemma decimal_from_of_uint_acc (d : Decimal.uint) :
  forall acc,
  decimal_from (Z.pos acc) (NilEmpty.string_of_uint d)
  = Z.pos (Pos.of_uint_acc d acc).
Proof.
  induction d; intros acc;
    cbn [decimal_from NilEmpty.string_of_uint Pos.of_uint_acc];
    [reflexivity| ..];
    rewrite <- IHd; f_equal;
    match goal with
    | |- context [Char.decimal_value ?c] =>
        let v := eval vm_compute in (Char.decimal_value c) in
        change (Char.decimal_value c) with v
    end; lia.
Qed.

Lemma decimal_from_of_uint (d : Decimal.uint) :
  decimal_from 0 (NilEmpty.string_of_uint d) = Z.of_N (Pos.of_uint d).
Proof.
  induction d; cbn [NilEmpty.string_of_uint Pos.of_uint Z.of_N];
    [reflexivity | exact IHd | ..];
    rewrite <- decimal_from_of_uint_acc; reflexivity.
Qed.

(** Reading back the decimal writing of a natural number. *)
Lemma decimal_number_str_of_int (n : Z) :
  0 <= n -> decimal_number (str_of_int n) = n.
Proof.
  intros Hn. destruct n as [|p|p]; [reflexivity | | lia].
  unfold str_of_int, decimal_number. simpl.
  unfold NilZero.string_of_uint.
  pose proof (DecimalPos.Unsigned.of_to p) as Hp.
  destruct (Pos.to_uint p) eqn:E; [discriminate Hp| ..];
    rewrite decimal_from_of_uint, Hp; reflexivity.
Qed.

(** X10. The page number printed in a page's marker, given back as a
    selection, selects that very page. *)
Theorem marker_number_selects_its_page (idx total_pages max_pages : Z) :
  0 <= idx < total_pages ->
  parse_page_range (Some (str_of_int (idx + 1))) total_pages max_pages
  = inr [idx].
Proof.
  intros H.
  destruct (str_of_int_decimal (idx + 1)) as (c & r & E & Hc & Hr); [lia|].
  rewrite digit_branch.
  - rewrite decimal_number_str_of_int by lia.
    destruct (idx + 1 <? 1) eqn:E1; [lia|].
    destruct (idx + 1 >? total_pages) eqn:E2; [lia|]. simpl.
    do 2 f_equal. lia.
  - rewrite E. discriminate.
  - rewrite E. simpl. now rewrite Hc, Hr.
Qed.

Lemma marker_number_selects_its_page_witness :
  parse_page_range (Some (str_of_int (41 + 1))) 50 3 = inr [41].
Proof. apply (marker_number_selects_its_page 41 50 3). lia. Defined.

(** X11. With [max_pages >= 1], a page number [n] and the range [n-n] are
    the same request: both give the same page, or both fail with errors of
    the same kind. *)
Theorem single_page_as_range (s : string) (total_pages max_pages : Z) :
  s <> "" -> Str.forallb Char.is_decimal s = true -> 1 <= max_pages ->
  match parse_page_range (Some s) total_pages max_pages,
        parse_page_range (Some (s ++ "-" ++ s)) total_pages max_pages with
  | inr l1, inr l2 => l1 = l2
  | inl e1, inl e2 => kind_of e1 = kind_of e2
  | _, _ => False
  end.
Proof.
  intros Hne Hd Hm.
  assert (Str.contains "-" s = false) as Hdash
      by (apply (forallb_not_contains Char.is_decimal); auto).
  assert (Str.contains "," (s ++ "-" ++ s) = false) as Hcomma.
  { rewrite contains_append. simpl.
    now rewrite (forallb_not_contains Char.is_decimal "," s eq_refl Hd). }
  rewrite (digit_branch s _ _ Hne Hd).
  rewrite (dash_branch s s _ _ Hdash Hcomma), (int_digits s Hne Hd).
  pose proof (decimal_from_nonneg s 0 (Z.le_refl 0) Hd) as Hn.
  fold (decimal_number s) in Hn.
  destruct (decimal_number s >? decimal_number s) eqn:E0; [lia|].
  destruct (decimal_number s <? 1) eqn:E1; [reflexivity|].
  destruct (decimal_number s >? total_pages) eqn:E2; [reflexivity|].
  simpl. rewrite py_range_consecutive.
  replace (Z.min (decimal_number s) (decimal_number s - 1 + max_pages)
           - (decimal_number s - 1)) with 1 by lia.
  unfold consecutive. simpl. now rewrite Z.add_0_r.
Qed.

Lemma single_page_as_range_witness :
  match parse_page_range (Some "12") 30 4,
        parse_page_range (Some ("12" ++ "-" ++ "12")) 30 4 with
  | inr l1, inr l2 => l1 = l2
  | inl e1, inl e2 => kind_of e1 = kind_of e2
  | _, _ => False
  end.
Proof.
  apply (single_page_as_range "12" 30 4); [discriminate | reflexivity | lia].
Defined.

(** * Further properties of the orchestrator *)

Ltac pdf_cases H :=
  unfold pdf_read, handle in H |- *; branch_cases H.


Lemma extract_parts_first_failure (reader : PdfReader) (e : exn)
  (idx : Z) (rest : list Z) :
  forall before,
  Forall (fun i => 0 <= i < Z.of_nat (length (reader_pages reader)))
    (before ++ idx :: rest)%list ->
  Forall (page_readable reader) before ->
  nth_error (reader_pages reader) (Z.to_nat idx) = Some (inl e) ->
  extract_parts reader (before ++ idx :: rest)%list = inl e.
Proof.
  induction before as [|i before IH]; intros Hb Hok Hidx; simpl in *.
  - inversion Hb; subst.
    rewrite py_index_in_bounds by assumption. now rewrite Hidx.
  - inversion Hb; inversion Hok as [|? ? (t & Ht) Hrest]; subst.
    rewrite py_index_in_bounds by assumption. rewrite Ht.
    now rewrite IH.
Qed.


(** What a call does once the path is accepted and the document is open
    and not encrypted. *)
Lemma pdf_read_opened (w : World) (file_path : string)
  (pages : option string) (max_pages : Z) (include_metadata : bool)
  (reader : PdfReader) :
  path_accepted (resolve w file_path) = true ->
  open_reader w (resolve w file_path) = inr reader ->
  is_encrypted reader = false ->
  pdf_read w file_path pages max_pages include_metadata
  = match parse_page_range pages
            (Z.of_nat (length (reader_pages reader)))
            (clamp_pages max_pages) with
    | inl e => inl (ParseError e)
    | inr page_indices =>
        match extract_parts reader page_indices with
        | inl e => inl (handle file_path e)
        | inr content_parts =>
            let content := Str.join (nl ++ nl) content_parts in
            inr (with_metadata include_metadata reader
                   [ ("path", VStr (path_str (resolve w file_path)));
                     ("name", VStr (path_name (resolve w file_path)));
                     ("total_pages",
                       VInt (Z.of_nat (length (reader_pages reader))));
                     ("pages_extracted",
                       VInt (Z.of_nat (length page_indices)));
                     ("content", VStr content);
                     ("char_count",
                       VInt (Z.of_nat (String.length content))) ])
        end
    end.
Proof.
  unfold path_accepted, pdf_read, clamp_pages. intros Hp Ho He.
  apply andb_prop in Hp as [Hp Hs]. apply andb_prop in Hp as [Hx Hf].
  now rewrite Hx, Hf, Hs, Ho, He.
Qed.

(** X12. A limit below 1 works as 1 and a limit above 1000 as 1000. *)
Theorem limit_is_clamped (w : World) (file_path : string)
  (pages : option string) (max_pages : Z) (include_metadata : bool) :
  (max_pages <= 1 ->
   pdf_read w file_path pages max_pages include_metadata
   = pdf_read w file_path pages 1 include_metadata)
  /\ (1000 <= max_pages ->
      pdf_read w file_path pages max_pages include_metadata
      = pdf_read w file_path pages 1000 include_metadata).
Proof.
  split; intros H; unfold pdf_read.
  - now replace (Z.max 1 (Z.min max_pages 1000))
      with (Z.max 1 (Z.min 1 1000)) by lia.
  - now replace (Z.max 1 (Z.min max_pages 1000))
      with (Z.max 1 (Z.min 1000 1000)) by lia.
Qed.

(** X13. A successful result counts between 0 and 1000 extracted pages,
    and never more than the limit asked for when that limit is at least
    1; its [total_pages] is the length of the document whatever was
    selected. *)
Theorem extracted_pages_bounded (w : World) (file_path : string)
  (pages : option string) (max_pages : Z) (include_metadata : bool)
  (r : dict pyval) :
  pdf_read w file_path pages max_pages include_metadata = inr r ->
  exists reader n,
    open_reader w (resolve w file_path) = inr reader
    /\ dict_get "total_pages" r
       = Some (VInt (Z.of_nat (length (reader_pages reader))))
    /\ dict_get "pages_extracted" r = Some (VInt n)
    /\ 0 <= n <= 1000
    /\ (1 <= max_pages -> n <= max_pages).
Proof.
  intros H.
  destruct (pdf_read_success _ _ _ _ _ _ H)
    as (reader & page_indices & Hopen & Hparse & ->).
  exists reader, (Z.of_nat (length page_indices)).
  rewrite !dict_get_with_metadata by discriminate.
  split; [exact Hopen|]. split; [reflexivity|]. split; [reflexivity|].
  apply parse_page_range_bounds in Hparse as [_ Hlen]; lia.
Qed.

Lemma extracted_pages_bounded_witness :
  exists reader n,
    open_reader sample_world (resolve sample_world "r.PDF") = inr reader
    /\ dict_get "total_pages" sample_result
       = Some (VInt (Z.of_nat (length (reader_pages reader))))
    /\ dict_get "pages_extracted" sample_result = Some (VInt n)
    /\ 0 <= n <= 1000
    /\ (1 <= 100 -> n <= 100).
Proof.
  apply (extracted_pages_bounded sample_world "r.PDF" (Some "1,3") 100 true
           sample_result).
  vm_compute. reflexivity.
Defined.


(** X15. Extraction stops at the first selected page whose text cannot be
    extracted: nothing is returned for the pages before it, and the error
    is that page's, a permission error being reported as such and any other
    as a failure to read. *)
Theorem first_unreadable_page_fails_the_call (w : World)
  (file_path : string) (pages : option string) (max_pages : Z)
  (include_metadata : bool) (reader : PdfReader) (e : exn)
  (before rest : list Z) (idx : Z) :
  path_accepted (resolve w file_path) = true ->
  open_reader w (resolve w file_path) = inr reader ->
  is_encrypted reader = false ->
  parse_page_range pages (Z.of_nat (length (reader_pages reader)))
    (clamp_pages max_pages) = inr (before ++ idx :: rest)%list ->
  Forall (page_readable reader) before ->
  nth_error (reader_pages reader) (Z.to_nat idx) = Some (inl e) ->
  pdf_read w file_path pages max_pages include_metadata
  = inl (match e with
         | PermissionError => PermissionDenied file_path
         | _ => ExtractionFailed e
         end).
Proof.
  intros Hp Ho He Hparse Hok Hidx.
  rewrite (pdf_read_opened _ _ _ _ _ _ Hp Ho He), Hparse.
  apply parse_page_range_bounds in Hparse as [Hb _];
    [|unfold clamp_pages; lia].
  now rewrite (extract_parts_first_failure _ _ _ _ _ Hb Hok Hidx).
Qed.

Lemma first_unreadable_page_fails_the_call_witness :
  pdf_read guarded_world "r.pdf" (Some "1,3,2") 10 true
  = inl (ExtractionFailed (OtherException "damaged stream")).
Proof.
  apply (first_unreadable_page_fails_the_call guarded_world "r.pdf"
           (Some "1,3,2") 10 true guarded_reader
           (OtherException "damaged stream") [0] [1] 2);
    try reflexivity.
  repeat constructor. now exists (Some "one").
Defined.

(** X16. A permission error is never reported as a plain failure to read,
    and a permission-denied result always names the path that was given. *)
Theorem permission_errors_are_told_apart (w : World) (file_path : string)
  (pages : option string) (max_pages : Z) (include_metadata : bool) :
  pdf_read w file_path pages max_pages include_metadata
  <> inl (ExtractionFailed PermissionError)
  /\ (forall p,
        pdf_read w file_path pages max_pages include_metadata
        = inl (PermissionDenied p) -> p = file_path).
Proof.
  split.
  - intros H. pdf_cases H.
  - intros p H. pdf_cases H; now injection H as <-.
Qed.



(** X19. The parser's error comes out of the call unchanged, and only
    when the path was accepted and the document opened and was not
    encrypted; the parser saw the document's page count and the clamped
    limit. *)
Theorem parser_errors_pass_through (w : World) (file_path : string)
  (pages : option string) (max_pages : Z) (include_metadata : bool)
  (e : parse_error) :
  pdf_read w file_path pages max_pages include_metadata = inl (ParseError e)
  <-> (path_accepted (resolve w file_path) = true
       /\ exists reader,
            open_reader w (resolve w file_path) = inr reader
            /\ is_encrypted reader = false
            /\ parse_page_range pages
                 (Z.of_nat (length (reader_pages reader)))
                 (clamp_pages max_pages) = inl e).
Proof.
  split.
  - intros H. unfold path_accepted, clamp_pages. pdf_cases H.
    injection H as <-.
    repeat match goal with
           | Hn : negb _ = false |- _ => apply negb_false_iff in Hn
           end.
    split; [now repeat (apply andb_true_intro; split)|].
    eexists. repeat split; eassumption.
  - intros (Hp & reader & Ho & He & Hparse).
    now rewrite (pdf_read_opened _ _ _ _ _ _ Hp Ho He), Hparse.
Qed.

Lemma extract_parts_agree (reader reader' : PdfReader) (l : list Z) :
  length (reader_pages reader') = length (reader_pages reader) ->
  Forall (fun i => 0 <= i < Z.of_nat (length (reader_pages reader))) l ->
  Forall (fun i => nth_error (reader_pages reader') (Z.to_nat i)
                   = nth_error (reader_pages reader) (Z.to_nat i)) l ->
  extract_parts reader' l = extract_parts reader l.
Proof.
  intros Hlen Hb Hsame. induction Hb as [|i l Hi _ IH]; [reflexivity|].
  inversion Hsame as [|? ? Hi' Hl']; subst. simpl.
  rewrite !py_index_in_bounds by (rewrite ?Hlen; assumption).
  now rewrite Hi', (IH Hl').
Qed.

(** X20. Pages outside the selection are never read: two documents of the
    same length and metadata that agree on the selected pages give the same
    result, whatever their other pages hold or raise. *)
Theorem unselected_pages_are_not_read (w w' : World) (file_path : string)
  (pages : option string) (max_pages : Z) (include_metadata : bool)
  (reader reader' : PdfReader) (page_indices : list Z) :
  resolve w' file_path = resolve w file_path ->
  path_accepted (resolve w file_path) = true ->
  open_reader w (resolve w file_path) = inr reader ->
  open_reader w' (resolve w file_path) = inr reader' ->
  is_encrypted reader = false -> is_encrypted reader' = false ->
  reader_metadata reader' = reader_metadata reader ->
  length (reader_pages reader') = length (reader_pages reader) ->
  parse_page_range pages (Z.of_nat (length (reader_pages reader)))
    (clamp_pages max_pages) = inr page_indices ->
  Forall (fun i => nth_error (reader_pages reader') (Z.to_nat i)
                   = nth_error (reader_pages reader) (Z.to_nat i))
    page_indices ->
  pdf_read w' file_path pages max_pages include_metadata
  = pdf_read w file_path pages max_pages include_metadata.
Proof.
  intros Hres Hp Ho Ho' He He' Hmeta Hlen Hparse Hsame.
  rewrite (pdf_read_opened w _ _ _ _ _ Hp Ho He).
  rewrite (pdf_read_opened w' _ _ _ _ reader');
    [| now rewrite Hres | now rewrite Hres | assumption].
  rewrite Hres, Hlen, Hparse.
  apply parse_page_range_bounds in Hparse as [Hb _];
    [|unfold clamp_pages; lia].
  rewrite (extract_parts_agree _ _ _ Hlen Hb Hsame).
  unfold with_metadata. now rewrite Hmeta.
Qed.

Lemma unselected_pages_are_not_read_witness :
  pdf_read guarded_world "r.pdf" (Some "1") 10 true
  = pdf_read sample_world "r.pdf" (Some "1") 10 true.
Proof.
  apply (unselected_pages_are_not_read sample_world guarded_world "r.pdf"
           (Some "1") 10 true sample_reader guarded_reader [0]);
    try reflexivity.
  repeat constructor.
Defined.

(** X21. On a document without pages only no selection, or "all", can
    succeed, and the result then has no content: zero pages extracted, an
    empty [content] and a [char_count] of zero. *)
Theorem empty_document (w : World) (file_path : string)
  (pages : option string) (max_pages : Z) (include_metadata : bool)
  (reader : PdfReader) (r : dict pyval) :
  pdf_read w file_path pages max_pages include_metadata = inr r ->
  open_reader w (resolve w file_path) = inr reader ->
  reader_pages reader = [] ->
  (pages = None \/ exists s, pages = Some s /\ In s all_variants)
  /\ dict_get "pages_extracted" r = Some (VInt 0)
  /\ dict_get "content" r = Some (VStr "")
  /\ dict_get "char_count" r = Some (VInt 0).
Proof.
  intros H Ho Hempty.
  destruct (pdf_read_success _ _ _ _ _ _ H)
    as (reader0 & l & Ho0 & Hparse & ->).
  rewrite Ho in Ho0. injection Ho0 as <-. rewrite Hempty in Hparse.
  assert (l = []) as ->.
  { apply parse_page_range_bounds in Hparse as [Hb _]; [|lia].
    destruct l as [|i l]; [reflexivity|]. inversion Hb; subst. simpl in *.
    lia. }
  rewrite !dict_get_with_metadata by discriminate.
  split; [|repeat split].
  destruct pages as [s|]; [right | now left].
  exists s. split; [reflexivity|]. apply lower_all_iff.
  destruct (String.eqb_spec (Str.lower s) "all") as [|Hne]; [assumption|].
  apply String.eqb_neq in Hne.
  pose proof (explicit_selection_length _ _ _ _ Hne
                (Z.le_max_l 1 (Z.min max_pages 1000)) Hparse) as Hlen.
  simpl in Hlen. lia.
Qed.

Lemma empty_document_witness :
  (Some "ALL" = None \/ exists s, Some "ALL" = Some s /\ In s all_variants)
  /\ dict_get "pages_extracted" blank_result = Some (VInt 0)
  /\ dict_get "content" blank_result = Some (VStr "")
  /\ dict_get "char_count" blank_result = Some (VInt 0).
Proof.
  apply (empty_document blank_world "r.pdf" (Some "ALL") 5 true blank_reader
           blank_result); reflexivity.
Defined.

Lemma join_starts_with_first (sep x : string) (rest : list string) :
  exists tail, Str.join sep (x :: rest) = x ++ tail.
Proof.
  destruct rest as [|y rest]; simpl.
  - exists "". now rewrite append_nil_r.
  - eexists; reflexivity.
Qed.

(** X22. On a document with at least one page every successful result has
    extracted at least one page, and its [content] begins with a page
    marker. *)
Theorem some_page_is_extracted (w : World) (file_path : string)
  (pages : option string) (max_pages : Z) (include_metadata : bool)
  (reader : PdfReader) (r : dict pyval) :
  pdf_read w file_path pages max_pages include_metadata = inr r ->
  open_reader w (resolve w file_path) = inr reader ->
  reader_pages reader <> [] ->
  exists n tail,
    dict_get "pages_extracted" r = Some (VInt n) /\ 1 <= n
    /\ dict_get "content" r = Some (VStr ("--- Page " ++ tail)).
Proof.
  intros H Ho Hne.
  destruct (pdf_read_success _ _ _ _ _ _ H)
    as (reader0 & l & Ho0 & Hparse & ->).
  rewrite Ho in Ho0. injection Ho0 as <-.
  rewrite !dict_get_with_metadata by discriminate.
  assert (1 <= length l)%nat as Hlen.
  { assert (1 <= length (reader_pages reader))%nat
      by (destruct (reader_pages reader); [contradiction | simpl; lia]).
    assert (forall s, pages = Some s ->
              String.eqb (Str.lower s) "all" = false ->
              (1 <= length l)%nat) as Hexplicit.
    { intros s -> Hs.
      exact (explicit_selection_length _ _ _ _ Hs
               (Z.le_max_l 1 (Z.min max_pages 1000)) Hparse). }
    unfold parse_page_range in Hparse.
    destruct pages as [s|].
    - destruct (String.eqb (Str.lower s) "all") eqn:Hs;
        [|now apply (Hexplicit s)].
      injection Hparse as <-.
      rewrite py_range_from_zero, length_consecutive. lia.
    - injection Hparse as <-.
      rewrite py_range_from_zero, length_consecutive. lia. }
  destruct l as [|idx l]; [simpl in Hlen; lia|].
  destruct (join_starts_with_first (nl ++ nl)
              (page_part idx (page_text reader idx))
              (List.map (fun i => page_part i (page_text reader i)) l))
    as (tail & Htail).
  eexists. eexists. split; [reflexivity|]. split; [simpl length; lia|].
  cbn [dict_get String.eqb Ascii.eqb Bool.eqb]. cbv iota.
  cbn [List.map]. rewrite Htail. unfold page_part.
  rewrite !append_assoc. reflexivity.
Qed.

Lemma some_page_is_extracted_witness :
  exists n tail,
    dict_get "pages_extracted" sample_result = Some (VInt n) /\ 1 <= n
    /\ dict_get "content" sample_result = Some (VStr ("--- Page " ++ tail)).
Proof.
  apply (some_page_is_extracted sample_world "r.PDF" (Some "1,3") 100 true
           sample_reader sample_result);
    [vm_compute; reflexivity | reflexivity | discriminate].
Defined.
